(** * rules_esbuild: the launcher's argument assembly and the Bazel sandbox
    resolver plugin.

    Shallow embedding of
    - [esbuild/private/launcher.js]  ([processConfigFile], the argument
      assembly at the head of [runOneBuild]);
    - [esbuild/private/plugins/bazel-sandbox.js]  ([bazelSandboxPlugin]'s
      [onResolve] callback and [resolveInExecroot]).

    JavaScript strings are modelled by [string] (a sequence of code units;
    the code only compares, searches and slices them), JavaScript objects
    used as option bags by [gmap string value], asynchronous functions by
    their outcome (returned value, thrown error or process exit) together
    with the list of effects they performed. *)

From Stdlib Require Import ZArith String Ascii List Lia Bool.
From stdpp Require Import base gmap strings list pretty.

Set Warnings "-register-all".
Local Open Scope Z_scope.

(** ** JavaScript string primitives used by the sources *)

Module JsString.

(** [s.startsWith(pre)] *)
Fixpoint startsWith (s pre : string) {struct pre} : bool :=
  match pre, s with
  | EmptyString, _ => true
  | String a pre', String b s' => Ascii.eqb a b && startsWith s' pre'
  | String _ _, EmptyString => false
  end.

(** [s.endsWith(suf)] for a one-character suffix, as [path.normalize]
    uses it on the last code unit. *)
Fixpoint endsWithChar (s : string) (c : ascii) : bool :=
  match s with
  | EmptyString => false
  | String a EmptyString => Ascii.eqb a c
  | String _ s' => endsWithChar s' c
  end.

(** [s.includes(sub)] *)
Fixpoint includes (s sub : string) : bool :=
  startsWith s sub ||
  match s with
  | EmptyString => false
  | String _ s' => includes s' sub
  end.

(** [s.indexOf(sub)]: the least position at which [sub] occurs, or -1. *)
Fixpoint indexOf (s sub : string) : Z :=
  if startsWith s sub then 0
  else match s with
       | EmptyString => -1
       | String _ s' =>
           let r := indexOf s' sub in
           if r <? 0 then -1 else r + 1
       end.

Fixpoint drop (n : nat) (s : string) : string :=
  match n, s with
  | O, _ => s
  | S _, EmptyString => EmptyString
  | S n', String _ s' => drop n' s'
  end.

(** [s.substring(start)]: a negative start is clamped to 0, a start past
    the end gives the empty string. *)
Definition substring (s : string) (start : Z) : string :=
  drop (Z.to_nat (Z.max 0 start)) s.

(** [s.split(sep)] for a one-character separator; never the empty list. *)
Fixpoint split (sep : ascii) (s : string) : list string :=
  match s with
  | EmptyString => [EmptyString]
  | String c s' =>
      if Ascii.eqb c sep then EmptyString :: split sep s'
      else match split sep s' with
           | [] => [String c EmptyString]
           | seg :: rest => String c seg :: rest
           end
  end.

(** [segs.join(sep)] *)
Fixpoint joinWith (sep : string) (segs : list string) : string :=
  match segs with
  | [] => EmptyString
  | [seg] => seg
  | seg :: rest => seg +:+ sep +:+ joinWith sep rest
  end.

(** The code units of a string as one-character strings, the way string
    iteration and indexed property enumeration yield them. *)
Fixpoint chars (s : string) : list string :=
  match s with
  | EmptyString => []
  | String c s' => String c EmptyString :: chars s'
  end.

End JsString.

(** ** Node's [path.join] (POSIX flavour, as under Bazel's sandbox)

    [path] is Node's standard module, not code of this repository.  The
    definitions below follow [lib/path.js] ([posix.join], [posix.normalize],
    [normalizeString]): the arguments are glued with "/", then the segments
    between slashes are scanned left to right; empty segments and "." are
    dropped, ".." removes the previous segment unless that is itself ".."
    (or there is none), in which case it is kept for a relative path and
    dropped for an absolute one. *)

Module NodePath.
Import JsString.

Definition slash : ascii := "/"%char.

(** One iteration of [normalizeString] at a separator; [res] is the stack
    of kept segments, innermost first. *)
Definition normalizeStep (allowAboveRoot : bool) (res : list string)
    (seg : string) : list string :=
  if String.eqb seg "" || String.eqb seg "." then res
  else if String.eqb seg ".." then
    match res with
    | top :: rest =>
        if String.eqb top ".."
        then (if allowAboveRoot then seg :: res else res)
        else rest
    | [] => if allowAboveRoot then [seg] else []
    end
  else seg :: res.

Definition normalizeString (p : string) (allowAboveRoot : bool) : string :=
  joinWith "/" (rev (fold_left (normalizeStep allowAboveRoot) (split slash p) [])).

Definition normalize (p : string) : string :=
  if String.eqb p "" then "."
  else
    let isAbsolute := startsWith p "/" in
    let trailingSeparator := endsWithChar p slash in
    let body := normalizeString p (negb isAbsolute) in
    if String.eqb body "" then
      (if isAbsolute then "/" else if trailingSeparator then "./" else ".")
    else
      (if isAbsolute then "/" else "") +:+ body +:+
      (if trailingSeparator then "/" else "").

(** [path.join(a, b)]: empty arguments are skipped. *)
Definition join (a b : string) : string :=
  if String.eqb a "" then
    (if String.eqb b "" then "." else normalize b)
  else if String.eqb b "" then normalize a
  else normalize (a +:+ "/" +:+ b).

End NodePath.

(** ** Outcomes and effects of the asynchronous functions

    A run either returns, throws ([throw], a rejected promise) or ends the
    process ([process.exit]); the effects performed up to that point stay in
    the log. *)

Module Effect.

Inductive exn :=
| TypeError (what : string)       (* raised by the language runtime *)
| FsError (code : string)         (* a rejected [fs] call, with its [code] *)
| ResolveRejected (what : string) (* a rejected [build.resolve] *)
| Error (message : string).       (* [new Error(message)] *)

Inductive outcome (A : Type) :=
| Returned (a : A)
| Thrown (e : exn)
| Exited (status : Z).
Arguments Returned {A} a.
Arguments Thrown {A} e.
Arguments Exited {A} status.

Definition M (E A : Type) : Type := outcome A * list E.

Definition ret {E A} (a : A) : M E A := (Returned a, []).
Definition throw {E A} (e : exn) : M E A := (Thrown e, []).
Definition exit {E A} (status : Z) : M E A := (Exited status, []).
Definition emit {E} (ev : E) : M E unit := (Returned tt, [ev]).

Definition bind {E A B} (m : M E A) (k : A → M E B) : M E B :=
  match m with
  | (Returned a, l) => let '(r, l') := k a in (r, l ++ l')
  | (Thrown e, l) => (Thrown e, l)
  | (Exited n, l) => (Exited n, l)
  end.

(** [try { m } catch (error) { h error }] *)
Definition tryCatch {E A} (m : M E A) (h : exn → M E A) : M E A :=
  match m with
  | (Thrown e, l) => let '(r, l') := h e in (r, l ++ l')
  | _ => m
  end.

Fixpoint foldM {E A B} (f : B → A → M E B) (l : list A) (acc : B) : M E B :=
  match l with
  | [] => ret acc
  | x :: l' => bind (f acc x) (foldM f l')
  end.

End Effect.

Notation "'let*' x ':=' m 'in' k" := (Effect.bind m (fun x => k))
  (at level 10, x name, m at level 100, k at level 200).
Notation "'run' m 'then' k" := (Effect.bind m (fun _ => k))
  (at level 10, m at level 100, k at level 200).

(** ** JavaScript values *)

Module Js.
Import JsString.

(** Values as they occur in parsed parameter files and in the default
    export of a configuration module.  Numbers are never computed with;
    [VFunction] stands for any callable.  An object is the bag of its own
    enumerable data properties, and enumeration order is that of the map.
    Prototypes are not part of a value: where the code reaches one (the
    method [hasOwnProperty], an assignment to [__proto__]) the embedding of
    that code says what happens. *)
Inductive value :=
| VUndefined
| VNull
| VBool (b : bool)
| VNumber (n : Z)
| VString (s : string)
| VArray (elems : list value)
| VObject (props : gmap string value)
| VFunction (name : string).

(** ToBoolean *)
Definition truthy (v : value) : bool :=
  match v with
  | VUndefined | VNull => false
  | VBool b => b
  | VNumber n => negb (n =? 0)
  | VString s => negb (String.eqb s "")
  | VArray _ | VObject _ | VFunction _ => true
  end.

(** [v === null || v === void 0] *)
Definition nullish (v : value) : bool :=
  match v with
  | VUndefined | VNull => true
  | _ => false
  end.

(** Index keys "0", "1", ... of an array-like. *)
Definition indexed (l : list value) : list (string * value) :=
  imap (λ (i : nat) v, (pretty i, v)) l.

(** [Object.entries(v)]: own enumerable string-keyed properties. *)
Definition entries (v : value) : list (string * value) :=
  match v with
  | VObject props => map_to_list props
  | VArray elems => indexed elems
  | VString s => indexed (VString <$> chars s)
  | _ => []
  end.

(** The own enumerable properties an object spread [{...v}] copies. *)
Definition ownProps (v : value) : gmap string value :=
  match v with
  | VObject props => props
  | _ => list_to_map (entries v)
  end.

(** [{...a, ...b}]: properties of [b] win. *)
Definition spread (a b : gmap string value) : gmap string value := b ∪ a.

(** The elements an array spread [[...v]] iterates, [None] when [v] is not
    iterable (a TypeError). *)
Definition iterate (v : value) : option (list value) :=
  match v with
  | VArray elems => Some elems
  | VString s => Some (VString <$> chars s)
  | _ => None
  end.

End Js.

(** ** launcher.js *)

Module Launcher.
Import Effect Js.

(** What the launcher writes with [console.error]. *)
Inductive console :=
| ParamsFileError (paramsFilePath : string)
| ConfigLoadError (configFilePath : string)
| NoDefaultExport (configFilePath : string)
| IgnoredWarning (key configFilePath : string)
| UnmergeableWarning (key configFilePath : string).

(** The text of the two merge warnings. *)
Definition warningText (c : console) : option string :=
  match c with
  | IgnoredWarning key configFilePath =>
      Some ("[WARNING] esbuild configuration property '" +:+ key +:+
            "' from '" +:+ configFilePath +:+ "' will be ignored and overridden")
  | UnmergeableWarning key configFilePath =>
      Some ("[WARNING] esbuild configuration property '" +:+ key +:+
            "' from '" +:+ configFilePath +:+ "' could not be merged")
  | _ => None
  end.

(** The key a merge warning is about. *)
Definition warnedKey (c : console) : option string :=
  match c with
  | IgnoredWarning key _ | UnmergeableWarning key _ => Some key
  | _ => None
  end.

(** The files and modules the launcher reads: a parameter file parses to
    an options object or fails; a dynamic [import] yields the module's
    exports or fails. *)
Record Env := {
  cwd : string;
  readParams : string → option (gmap string value);
  importModule : string → option (gmap string value);
}.

Definition IGNORED_CONFIG_KEYS : list string :=
  ["bundle"; "entryPoints"; "external"; "metafile"; "outdir"; "outfile";
   "preserveSymlinks"; "sourcemap"; "splitting"].

Definition MERGE_CONFIG_KEYS : list string := ["define"].

(** [getEsbuildArgs] *)
Definition getEsbuildArgs (env : Env) (paramsFilePath : string)
    : M console (gmap string value) :=
  match readParams env paramsFilePath with
  | Some args => ret args
  | None => run emit (ParamsFileError paramsFilePath) then exit 1
  end.

(** [prev[key] = value] on the accumulator of the fold, an ordinary object:
    the value becomes an own property, except under the name [__proto__],
    where the assignment stores no own property (it replaces the prototype
    of [prev] when the value is an object, and does nothing otherwise).
    The prototype installed that way is not tracked. *)
Definition assign (key : string) (v : value) (prev : gmap string value)
    : gmap string value :=
  if String.eqb key "__proto__" then prev else <[key := v]> prev.

(** [existingArgs.hasOwnProperty(key)]: the arguments are parsed JSON, so an
    own property of theirs named [hasOwnProperty] is never callable and the
    call throws; otherwise the method is [Object.prototype]'s. *)
Definition hasOwnProperty (existingArgs : gmap string value) (key : string)
    : M console bool :=
  match existingArgs !! "hasOwnProperty" with
  | Some _ => throw (TypeError "existingArgs.hasOwnProperty is not a function")
  | None => ret (bool_decide (is_Some (existingArgs !! key)))
  end.

(** The callback of [Object.entries(config).reduce] in
    [processConfigFile]. *)
Definition mergeEntry (configFilePath : string)
    (existingArgs : gmap string value)
    (prev : gmap string value) (entry : string * value)
    : M console (gmap string value) :=
  let '(key, value) := entry in
  if nullish value then ret prev
  else if bool_decide (key ∈ IGNORED_CONFIG_KEYS) then
    run emit (IgnoredWarning key configFilePath) then ret prev
  else
    let* mergeable :=
      (if bool_decide (key ∈ MERGE_CONFIG_KEYS)
       then hasOwnProperty existingArgs key else ret false) in
    if mergeable then
      let existing := default VUndefined (existingArgs !! key) in
      match value with
      | VArray elems =>
          match iterate existing with
          | Some elems' => ret (assign key (VArray (elems ++ elems')) prev)
          | None => throw (TypeError "existingArgs[key] is not iterable")
          end
      | VObject props =>
          ret (assign key (VObject (spread props (ownProps existing))) prev)
      | _ =>
          run emit (UnmergeableWarning key configFilePath) then ret prev
      end
    else ret (assign key value prev).

(** [processConfigFile(configFilePath, existingArgs)] *)
Definition processConfigFile (env : Env) (configFilePath : string)
    (existingArgs : gmap string value) : M console (gmap string value) :=
  match importModule env (NodePath.join (cwd env) configFilePath) with
  | None => run emit (ConfigLoadError configFilePath) then exit 1
  | Some exports =>
      match exports !! "default" with
      | Some config =>
          if truthy config then
            foldM (mergeEntry configFilePath existingArgs) (entries config) ∅
          else run emit (NoDefaultExport configFilePath) then exit 1
      | None => run emit (NoDefaultExport configFilePath) then exit 1
      end
  end.

(** A flag read by [getFlag(flag, false)] is absent ([undefined]) or a
    string; only a non-empty string is truthy. *)
Definition flagSet (flag : option string) : option string :=
  match flag with
  | Some p => if String.eqb p "" then None else Some p
  | None => None
  end.

(** Lines 106-111 of [runOneBuild]: the inline arguments with the user's
    parameter file laid over them. *)
Definition inlineArgs (env : Env) (args : gmap string value)
    (userArgsFilePath : option string) : M console (gmap string value) :=
  match flagSet userArgsFilePath with
  | Some p => let* userArgs := getEsbuildArgs env p in ret (spread args userArgs)
  | None => ret args
  end.

(** Lines 106-119 of [runOneBuild]: the build specification handed on to
    the plugin set-up and to [esbuild.build]. *)
Definition assembleArgs (env : Env) (args : gmap string value)
    (userArgsFilePath configFilePath : option string)
    : M console (gmap string value) :=
  let* args1 := inlineArgs env args userArgsFilePath in
  match flagSet configFilePath with
  | Some p => let* config := processConfigFile env p args1 in ret (spread args1 config)
  | None => ret args1
  end.

(** One way [processConfigFile] can throw once the module is loaded: the
    configuration gives an array for "define" and the existing value
    cannot be iterated.  [defineSpreads] excludes it. *)
Definition defineSpreads (config existingArgs : gmap string value) : bool :=
  match config !! "define", existingArgs !! "define" with
  | Some (VArray _), Some existing =>
      match iterate existing with
      | Some _ => true
      | None => false
      end
  | _, _ => true
  end.

(** The other way: the configuration gives "define" a value that is neither
    [null] nor [undefined], so the fold calls [existingArgs.hasOwnProperty],
    and the arguments have an own property of that name. *)
Definition shadowedHasOwnProperty (config existingArgs : gmap string value) : bool :=
  match config !! "define", existingArgs !! "hasOwnProperty" with
  | Some value, Some _ => negb (nullish value)
  | _, _ => false
  end.

(** The fold over the configuration returns (neither way to throw applies). *)
Definition foldReturns (config existingArgs : gmap string value) : bool :=
  negb (shadowedHasOwnProperty config existingArgs) &&
  defineSpreads config existingArgs.

(** The warnings in a log that name [key]. *)
Definition warningsNaming (key : string) (log : list console) : list console :=
  List.filter (λ c, bool_decide (warnedKey c = Some key)) log.

End Launcher.

(** ** plugins/bazel-sandbox.js *)

Module Sandbox.
Import Effect Js JsString.

(** The [pluginData] of a resolution request: any value.  An object on
    which the write of a new property takes effect is the bag of its
    properties ([PDObject]); an object on which such a write is dropped
    (frozen, sealed, not extensible) is [PDLocked], with the properties it
    has; the other values are primitives, which carry no own property.
    Accessors and proxies, which run code of their own on a read or a
    write, are not modelled. *)
Inductive PluginData :=
| PDUndefined
| PDNull
| PDBool (b : bool)
| PDNumber (n : Z)
| PDString (s : string)
| PDObject (props : gmap string value)
| PDLocked (props : gmap string value).

(** ToBoolean *)
Definition pdTruthy (pd : PluginData) : bool :=
  match pd with
  | PDUndefined | PDNull => false
  | PDBool b => b
  | PDNumber n => negb (n =? 0)
  | PDString s => negb (String.eqb s "")
  | PDObject _ | PDLocked _ => true
  end.

(** [pd.key] for a [pd] that is neither [undefined] nor [null]: a
    primitive has no such property. *)
Definition pdGet (pd : PluginData) (key : string) : value :=
  match pd with
  | PDObject props | PDLocked props => default VUndefined (props !! key)
  | _ => VUndefined
  end.

(** [pd.key = v] for a [pd] that is neither [undefined] nor [null], where
    [pd] does not have the property yet: the file is not in strict mode, so
    the write to a primitive, or to an object that takes no new property,
    is dropped without an error. *)
Definition pdSet (pd : PluginData) (key : string) (v : value) : PluginData :=
  match pd with
  | PDObject props => PDObject (<[key := v]> props)
  | _ => pd
  end.

(** The rest of the callback's argument once [path] is taken out. *)
Record ResolveOptions := {
  importer : string;
  namespace : string;
  resolveDir : string;
  kind : string;
  pluginData : PluginData;
}.

Definition withPluginData (o : ResolveOptions) (pd : PluginData) : ResolveOptions :=
  {| importer := importer o; namespace := namespace o;
     resolveDir := resolveDir o; kind := kind o; pluginData := pd |}.

(** A resolution result: the fields the plugin reads, and the others. *)
Record ResolveResult := {
  path : string;
  errors : option (list string);
  others : gmap string value;
}.

Definition withPath (r : ResolveResult) (p : string) : ResolveResult :=
  {| path := p; errors := errors r; others := others r |}.

Record Stats := { isSymbolicLink : bool }.

Inductive fsResult (A : Type) :=
| FsOk (a : A)
| FsFail (code : string).
Arguments FsOk {A} a.
Arguments FsFail {A} code.

(** The process environment, the file system and the bundler's resolver
    as the plugin sees them. *)
Record Env := {
  bindir : string;                (* BAZEL_BINDIR *)
  execroot : string;              (* JS_BINARY__EXECROOT *)
  logDebug : bool;                (* !!JS_BINARY__LOG_DEBUG *)
  lstat : string → fsResult Stats;
  readlink : string → fsResult string;
  resolve : string → ResolveOptions → exn + ResolveResult;
}.

(** The calls the plugin makes, in order. *)
Inductive event :=
| Lstat (p : string)
| Readlink (p : string)
| BuildResolve (importPath : string) (options : ResolveOptions)
| ConsoleError (message : string).

Definition fsCall {A} (ev : event) (r : fsResult A) : M event A :=
  run emit ev then
  match r with
  | FsOk a => ret a
  | FsFail code => throw (FsError code)
  end.

(** [build.resolve(importPath, otherOptions)] *)
Definition buildResolve (env : Env) (importPath : string)
    (otherOptions : ResolveOptions) : M event ResolveResult :=
  run emit (BuildResolve importPath otherOptions) then
  match resolve env importPath otherOptions with
  | inr result => ret result
  | inl e => throw e
  end.

(** [error.code] *)
Definition errorCode (e : exn) : option string :=
  match e with
  | FsError code => Some code
  | _ => None
  end.

(** Lines 43-55 of [resolveInExecroot]: the value of [result] after the
    block for relative imports, [None] while it is still unset. *)
Definition fastPath (env : Env) (importPath : string)
    (otherOptions : ResolveOptions) : M event (option ResolveResult) :=
  if startsWith importPath "." then
    let resolvedPath := NodePath.join (resolveDir otherOptions) importPath in
    tryCatch
      (let* st := fsCall (Lstat resolvedPath) (lstat env resolvedPath) in
       let* resolvedPath' :=
         (if isSymbolicLink st then
            let linkPath := NodePath.join (resolveDir otherOptions) importPath in
            fsCall (Readlink linkPath) (readlink env linkPath)
          else ret resolvedPath) in
       ret (Some {| path := resolvedPath'; errors := None; others := ∅ |}))
      (λ error,
         if bool_decide (errorCode error ≠ Some "ENOENT") then throw error
         else ret None)
  else ret None.

Definition escapeMessage (env : Env) (resolved : string) : string :=
  "Error: esbuild resolved a path outside of BAZEL_BINDIR (" +:+ bindir env
  +:+ "): " +:+ resolved.

Definition debugMessage (resolved corrected : string) : string :=
  "DEBUG: [bazel-sandbox] correcting esbuild resolution " +:+ resolved +:+
  " that left the sandbox to " +:+ corrected +:+ ".".

(** [result.errors && result.errors.length] *)
Definition hasErrors (result : ResolveResult) : bool :=
  match errors result with
  | Some (_ :: _) => true
  | _ => false
  end.

(** The one-character string holding a backslash. *)
Definition backslash : string := String (Ascii.ascii_of_nat 92) EmptyString.

(** The test of lines 66-70, negated: the path starts like a relative or
    an absolute path. *)
Definition pathLike (p : string) : bool :=
  startsWith p "." || startsWith p "/" || startsWith p backslash.

(** Lines 61-95 of [resolveInExecroot]: what is done with [result]. *)
Definition sandboxResult (env : Env) (result : ResolveResult)
    : M event ResolveResult :=
  if hasErrors result then ret result
  else if negb (pathLike (path result)) then ret result
  else if negb (startsWith (path result) (execroot env)) then
    if negb (includes (path result) (bindir env)) then
      throw (Error (escapeMessage env (path result)))
    else
      let correctedPath :=
        NodePath.join (execroot env)
          (substring (path result) (indexOf (path result) (bindir env))) in
      run (if logDebug env
           then emit (ConsoleError (debugMessage (path result) correctedPath))
           else ret tt) then
      ret (withPath result correctedPath)
  else ret result.

(** Lines 43-59 of [resolveInExecroot]: [result] as the fast path left
    it, or else as [build.resolve] gives it. *)
Definition resolution (env : Env) (importPath : string)
    (otherOptions : ResolveOptions) : M event ResolveResult :=
  let* fast := fastPath env importPath otherOptions in
  match fast with
  | Some result => ret result
  | None => buildResolve env importPath otherOptions
  end.

(** [resolveInExecroot(build, importPath, otherOptions)] *)
Definition resolveInExecroot (env : Env) (importPath : string)
    (otherOptions : ResolveOptions) : M event ResolveResult :=
  let* result := resolution env importPath otherOptions in
  sandboxResult env result.

Definition marker : string := "executedSandboxPlugin".

(** The request's forwarding data carries the plugin's marker. *)
Definition marked (pd : PluginData) : bool :=
  pdTruthy pd && truthy (pdGet pd marker).

(** Lines 19-26 of the [onResolve] callback: [None] when the callback
    returns at once, otherwise the options after the marker has been
    written.  [otherOptions] is the callback's own copy of the argument;
    a [pluginData] object is the caller's, written in place. *)
Definition guard (otherOptions : ResolveOptions) : option ResolveOptions :=
  if pdTruthy (pluginData otherOptions) then
    if truthy (pdGet (pluginData otherOptions) marker) then None
    else Some (withPluginData otherOptions
                 (pdSet (pluginData otherOptions) marker (VBool true)))
  else
    Some (withPluginData otherOptions
            (pdSet (PDObject ∅) marker (VBool true))).

(** The callback registered with [build.onResolve]; [None] is the
    [undefined] that lets the bundler carry on by itself. *)
Definition onResolve (env : Env) (importPath : string)
    (otherOptions : ResolveOptions) : M event (option ResolveResult) :=
  match guard otherOptions with
  | None => ret None
  | Some otherOptions' =>
      let* result := resolveInExecroot env importPath otherOptions' in
      ret (Some result)
  end.

Definition isBuildResolve (ev : event) : bool :=
  match ev with
  | BuildResolve _ _ => true
  | _ => false
  end.

(** The calls to [build.resolve] in a log. *)
Definition resolverCalls (log : list event) : list event :=
  List.filter isBuildResolve log.


End Sandbox.

(** ** Sample inputs *)

Module Fixture.
Import Effect Js JsString Sandbox.

Definition fromDir (dir : string) (pd : PluginData) : ResolveOptions :=
  {| importer := dir +:+ "/main.js"; namespace := "file";
     resolveDir := dir; kind := "import-statement"; pluginData := pd |}.

Definition resolved (p : string) : ResolveResult :=
  {| path := p; errors := Some []; others := ∅ |}.

(** A sandbox rooted at /exec.  In /exec/app: [lib.js] is a regular file,
    [link.js] a symbolic link to "lib.js", [uplink.js] a symbolic link to
    "../shared/util.js", [locked.js] cannot be examined, nothing else
    exists.  The bundler resolves "x" and "stray" outside the sandbox. *)
Definition sandbox : Env :=
  {| bindir := "bazel-out/k8-fastbuild/bin";
     execroot := "/exec";
     logDebug := false;
     lstat := λ p,
       if String.eqb p "/exec/app/lib.js" then FsOk {| isSymbolicLink := false |}
       else if String.eqb p "/exec/app/link.js" then FsOk {| isSymbolicLink := true |}
       else if String.eqb p "/exec/app/uplink.js" then FsOk {| isSymbolicLink := true |}
       else if String.eqb p "/exec/app/locked.js" then FsFail "EACCES"
       else FsFail "ENOENT";
     readlink := λ p,
       if String.eqb p "/exec/app/link.js" then FsOk "lib.js"
       else if String.eqb p "/exec/app/uplink.js" then FsOk "../shared/util.js"
       else FsFail "EINVAL";
     resolve := λ p _,
       if String.eqb p "x" then inr (resolved "/outside/bazel-out/k8-fastbuild/bin/x")
       else if String.eqb p "stray" then inr (resolved "/outside/x")
       else if String.eqb p "react" then inr (resolved "/exec/node_modules/react/index.js")
       else inr {| path := ""; errors := Some ["Could not resolve"]; others := ∅ |} |}.

Definition num (n : Z) : value := VNumber n.

(** The inline arguments of the rule. *)
Definition ruleArgs : gmap string value :=
  {[ "bundle" := VBool true;
     "minify" := VBool false;
     "define" := VObject {[ "B" := num 3; "C" := num 4 ]} ]}.

(** The default export of esbuild.config.mjs. *)
Definition userConfig : gmap string value :=
  {[ "bundle" := VBool false;
     "minify" := VBool true;
     "define" := VObject {[ "A" := num 1; "B" := num 2 ]} ]}.

(** The same pair with sequences under "define". *)
Definition ruleArgsSeq : gmap string value :=
  {[ "define" := VArray [VString "c"] ]}.

Definition userConfigSeq : gmap string value :=
  {[ "define" := VArray [VString "a"; VString "b"] ]}.

Definition project : Launcher.Env :=
  {| Launcher.cwd := "/work";
     Launcher.readParams := λ _, None;
     Launcher.importModule := λ p,
       if String.eqb p "/work/esbuild.config.mjs"
       then Some {[ "default" := VObject userConfig ]}
       else if String.eqb p "/work/seq.config.mjs"
       then Some {[ "default" := VObject userConfigSeq ]}
       else None |}.

End Fixture.

(** ** launcher.js: flags, plug-in list, build and exit *)

Module Driver.
Import Effect Js JsString.

(** What [process] gives the launcher. *)
Record Process := {
  argv : list string;
  ESBUILD_BINARY_PATH : option string;
  ESBUILD_BAZEL_SANDBOX_PLUGIN : option string;
}.

(** [!!process.env.NAME]: set, and not to the empty string. *)
Definition envSet (v : option string) : bool :=
  match v with
  | Some s => negb (String.eqb s "")
  | None => false
  end.

(** A value caught by the [catch] of [runOneBuild]: whether it is an
    [Error], and its [message]. *)
Record rejection := {
  instanceofError : bool;
  message : string;
}.

(** What the launcher writes with [console.error] outside the argument
    assembly, and, wrapped, inside it. *)
Inductive output :=
| FlagMissing (flag : string)
| BinaryPathMissing
| ParamsPathUndefined
| Assembling (c : Launcher.console)
| BuildError (e : rejection).

Definition outputText (o : output) : option string :=
  match o with
  | FlagMissing flag =>
      Some ("Expected flag '" +:+ flag +:+ "' passed to launcher, but not found")
  | BinaryPathMissing =>
      Some "Expected environment variable ESBUILD_BINARY_PATH to be set"
  | Assembling c => Launcher.warningText c
  | _ => None
  end.

(** The effects of a run of the launcher, in order.  [WriteFile p v] is
    [writeFileSync(p, JSON.stringify(v))]. *)
Inductive event :=
| Console (o : output)
| Build (args : gmap string value)
| WriteFile (p : string) (v : value).

(** The outcome of [esbuild.build]. *)
Inductive buildOutcome :=
| Built (result : gmap string value)
| Failed (e : rejection).

(** The bundler and the file system as the driver sees them. *)
Record Env := {
  files : Launcher.Env;
  build : gmap string value → buildOutcome;
  writeFile : string → value → option rejection;
}.

(** A computation of the argument assembly, run inside the driver. *)
Definition assembling {A} (m : M Launcher.console A) : M event A :=
  (fst m, (λ c, Console (Assembling c)) <$> snd m).

(** [getFlag(flag, required)] *)
Definition getFlag (proc : Process) (flag : string) (required : bool)
    : M event (option string) :=
  match List.find (λ arg, startsWith arg (flag +:+ "=")) (argv proc) with
  | None =>
      if required then run emit (Console (FlagMissing flag)) then exit 1
      else ret None
  | Some argvFlag => ret (split "="%char argvFlag !! 1%nat)
  end.

(** The object [bazelSandboxPlugin()] returns. *)
Definition bazelSandboxPlugin : value :=
  VObject {[ "name" := VString "bazel-sandbox"; "setup" := VFunction "setup" ]}.

(** Lines 121-129 of [runOneBuild]. *)
Definition withPlugins (proc : Process) (args : gmap string value)
    : M event (gmap string value) :=
  let plugins :=
    if envSet (ESBUILD_BAZEL_SANDBOX_PLUGIN proc) then [bazelSandboxPlugin] else [] in
  match args !! "plugins" with
  | None | Some VUndefined => ret (<["plugins" := VArray plugins]> args)
  | Some given =>
      match iterate given with
      | Some more => ret (<["plugins" := VArray (plugins ++ more)]> args)
      | None => throw (TypeError "args.plugins is not iterable")
      end
  end.

(** [\d] *)
Definition isDigit (c : ascii) : bool :=
  (48 <=? nat_of_ascii c)%nat && (nat_of_ascii c <=? 57)%nat.

(** [\d*], taken greedily: what is left of the string. *)
Fixpoint skipDigits (s : string) : string :=
  match s with
  | String c s' => if isDigit c then skipDigits s' else s
  | EmptyString => s
  end.

(** The rest of [s] after the literal [pre], if [s] starts with it. *)
Definition stripPrefix (pre s : string) : option string :=
  if startsWith s pre then Some (drop (String.length pre) s) else None.

(** [/Build failed with \d+ errors?:/] matched at the start of [s]. *)
Definition buildFailedAt (s : string) : bool :=
  match stripPrefix "Build failed with " s with
  | Some (String c _ as r) =>
      isDigit c &&
      match stripPrefix " error" (skipDigits r) with
      | Some t => startsWith t ":" || startsWith t "s:"
      | None => false
      end
  | _ => false
  end.

(** [/Build failed with \d+ errors?:/.test(s)]: a match at any position. *)
Fixpoint buildFailedPattern (s : string) : bool :=
  buildFailedAt s ||
  match s with
  | String _ s' => buildFailedPattern s'
  | EmptyString => false
  end.

(** [v === "silent"] *)
Definition isSilent (v : option value) : bool :=
  match v with
  | Some (VString s) => String.eqb s "silent"
  | _ => false
  end.

(** [hasAlreadyLogged] *)
Definition hasAlreadyLogged (args : gmap string value) (e : rejection) : bool :=
  negb (isSilent (args !! "logLevel")) &&
  instanceofError e &&
  buildFailedPattern (message e).

(** The [catch] block of [runOneBuild]. *)
Definition caught (args : gmap string value) (e : rejection) : M event unit :=
  run (if hasAlreadyLogged args e then ret tt else emit (Console (BuildError e)))
  then exit 1.

(** Lines 131-153 of [runOneBuild]. *)
Definition buildAndReport (proc : Process) (env : Env)
    (args : gmap string value) : M event unit :=
  run emit (Build args) then
  match build env args with
  | Failed e => caught args e
  | Built result =>
      let metafile := default VUndefined (result !! "metafile") in
      if truthy metafile then
        let* flag := getFlag proc "--metafile" true in
        match flag with
        | Some p =>
            run emit (WriteFile p metafile) then
            match writeFile env p metafile with
            | None => ret tt
            | Some e => caught args e
            end
        | None =>
            caught args {| instanceofError := true;
                           message := "The path argument must be of type string" |}
        end
      else ret tt
  end.

(** [runOneBuild(args, userArgsFilePath, configFilePath)] *)
Definition runOneBuild (proc : Process) (env : Env) (args : gmap string value)
    (userArgsFilePath configFilePath : option string) : M event unit :=
  let* args1 :=
    assembling (Launcher.assembleArgs (files env) args userArgsFilePath configFilePath) in
  let* args2 := withPlugins proc args1 in
  buildAndReport proc env args2.

(** The top level of the module: the check of lines 100-103, then the call
    of lines 156-160 with its arguments evaluated left to right. *)
Definition main (proc : Process) (env : Env) : M event unit :=
  if negb (envSet (ESBUILD_BINARY_PATH proc)) then
    run emit (Console BinaryPathMissing) then exit 1
  else
    let* paramsFilePath := getFlag proc "--esbuild_args" true in
    let* args :=
      match paramsFilePath with
      | Some p => assembling (Launcher.getEsbuildArgs (files env) p)
      | None => run emit (Console ParamsPathUndefined) then exit 1
      end in
    let* userArgsFilePath := getFlag proc "--user_args" false in
    let* configFilePath := getFlag proc "--config_file" false in
    runOneBuild proc env args userArgsFilePath configFilePath.

(** The builds in a log. *)
Definition builds (log : list event) : list (gmap string value) :=
  omap (λ ev, match ev with Build args => Some args | _ => None end) log.

(** What is written to the console in a log. *)
Definition consoleOutput (log : list event) : list output :=
  omap (λ ev, match ev with Console o => Some o | _ => None end) log.

(** All the code units of [s] are digits. *)
Fixpoint allDigits (s : string) : bool :=
  match s with
  | String c s' => isDigit c && allDigits s'
  | EmptyString => true
  end.

(** The code unit [c] occurs in [s]. *)
Fixpoint hasChar (c : ascii) (s : string) : bool :=
  match s with
  | String a s' => Ascii.eqb a c || hasChar c s'
  | EmptyString => false
  end.

End Driver.

(** ** Reading the plug-in's log *)

Module SandboxLog.
Import Sandbox.

Definition isFsCall (ev : event) : bool :=
  match ev with
  | Lstat _ | Readlink _ => true
  | _ => false
  end.

(** The file-system calls in a log. *)
Definition fsCalls (log : list event) : list event := List.filter isFsCall log.

Definition isConsole (ev : event) : bool :=
  match ev with
  | ConsoleError _ => true
  | _ => false
  end.

(** The console messages in a log. *)
Definition consoleCalls (log : list event) : list event := List.filter isConsole log.

End SandboxLog.

(** ** Shapes of paths *)

Module PathShape.
Import JsString.

(** A path segment that [path.normalize] keeps as it is: not empty, not
    "." or "..", and without a slash. *)
Definition cleanSegment (seg : string) : bool :=
  negb (String.eqb seg "") && negb (String.eqb seg ".") &&
  negb (String.eqb seg "..") && negb (Driver.hasChar NodePath.slash seg).

(** The absolute path made of the segments [segs]: "/" for none. *)
Definition absolutePath (segs : list string) : string :=
  "/" +:+ joinWith "/" segs.

(** No segment of [p] is "..". *)
Definition noParentSegment (p : string) : bool :=
  forallb (λ seg, negb (String.eqb seg "..")) (split NodePath.slash p).

End PathShape.

(** ** More sample inputs *)

Module Sample.
Import Effect Js JsString.

(** The sandbox of [Fixture.sandbox] with JS_BINARY__LOG_DEBUG set. *)
Definition debugSandbox : Sandbox.Env :=
  {| Sandbox.bindir := Sandbox.bindir Fixture.sandbox;
     Sandbox.execroot := Sandbox.execroot Fixture.sandbox;
     Sandbox.logDebug := true;
     Sandbox.lstat := Sandbox.lstat Fixture.sandbox;
     Sandbox.readlink := Sandbox.readlink Fixture.sandbox;
     Sandbox.resolve := Sandbox.resolve Fixture.sandbox |}.

(** Inline arguments without "define". *)
Definition plainArgs : gmap string value :=
  {[ "entryPoints" := VArray [VString "a.js"]; "format" := VString "esm" ]}.

(** A configuration with a [null] and with a "define" that is a string. *)
Definition oddConfig : gmap string value :=
  {[ "target" := VNull; "define" := VString "DEBUG" ]}.

(** A configuration whose "define" is a sequence. *)
Definition seqConfig : gmap string value :=
  {[ "define" := VArray [VString "a"] ]}.

(** Inline arguments with a property named as the method the merge
    calls. *)
Definition shadowingArgs : gmap string value :=
  {[ "hasOwnProperty" := VBool true; "format" := VString "esm" ]}.

Definition userFile : gmap string value :=
  {[ "format" := VString "cjs"; "minify" := VBool true ]}.

Definition files : Launcher.Env :=
  {| Launcher.cwd := "/work";
     Launcher.readParams := λ p,
       if String.eqb p "/work/args.json" then Some plainArgs
       else if String.eqb p "/work/user.json" then Some userFile
       else None;
     Launcher.importModule := λ p,
       if String.eqb p "/work/esbuild.config.mjs"
       then Some {[ "default" := VObject Fixture.userConfig ]}
       else if String.eqb p "/work/odd.config.mjs"
       then Some {[ "default" := VObject oddConfig ]}
       else if String.eqb p "/work/seq.config.mjs"
       then Some {[ "default" := VObject seqConfig ]}
       else if String.eqb p "/work/empty.config.mjs"
       then Some ∅
       else None |}.

Definition summary : Driver.rejection :=
  {| Driver.instanceofError := true;
     Driver.message := "Build failed with 2 errors:" |}.

(** A bundler that fails without entry points, and otherwise gives a
    metafile when asked for one. *)
Definition bundler : Driver.Env :=
  {| Driver.files := files;
     Driver.build := λ spec,
       match spec !! "entryPoints" with
       | None => Driver.Failed summary
       | Some _ =>
           match spec !! "metafile" with
           | Some (VBool true) =>
               Driver.Built {[ "metafile" := VObject {[ "outputs" := VObject ∅ ]} ]}
           | _ => Driver.Built ∅
           end
       end;
     Driver.writeFile := λ _ _, None |}.

Definition launch (sandboxed : bool) (flags : list string) : Driver.Process :=
  {| Driver.argv := "node" :: "launcher.js" :: flags;
     Driver.ESBUILD_BINARY_PATH := Some "/bin/esbuild";
     Driver.ESBUILD_BAZEL_SANDBOX_PLUGIN := if sandboxed then Some "1" else None |}.

End Sample.

(** * Properties *)

(** ** Strings *)

Section StringFacts.
Import JsString.

Lemma app_nil_str (t : string) : EmptyString +:+ t = t.
Proof. reflexivity. Qed.

Lemma app_cons_str (c : ascii) (s t : string) :
  String c s +:+ t = String c (s +:+ t).
Proof. reflexivity. Qed.

Lemma app_assoc_str (a b c : string) : (a +:+ b) +:+ c = a +:+ (b +:+ c).
Proof. induction a as [|x a IH]; [done|]. rewrite !app_cons_str. by rewrite IH. Qed.

Lemma app_nil_r_str (a : string) : a +:+ EmptyString = a.
Proof. induction a as [|x a IH]; [done|]. by rewrite app_cons_str, IH. Qed.

Lemma startsWith_app (pre t : string) : startsWith (pre +:+ t) pre = true.
Proof.
  induction pre as [|a pre IH]; [done|].
  rewrite app_cons_str. simpl. by rewrite Ascii.eqb_refl, IH.
Qed.

Lemma startsWith_inv (s pre : string) :
  startsWith s pre = true → ∃ t, s = pre +:+ t.
Proof.
  revert s; induction pre as [|a pre IH]; intros s H.
  - by exists s.
  - destruct s as [|b s]; [done|]. simpl in H.
    apply andb_true_iff in H as [Hab H].
    apply Ascii.eqb_eq in Hab as ->.
    destruct (IH _ H) as [t ->]. by exists t.
Qed.

Lemma startsWith_spec (s pre : string) :
  startsWith s pre = true ↔ ∃ t, s = pre +:+ t.
Proof.
  split; [apply startsWith_inv|]. intros [t ->]. apply startsWith_app.
Qed.

Lemma includes_startsWith (s sub : string) :
  startsWith s sub = true → includes s sub = true.
Proof. intros H. destruct s; simpl; by rewrite H. Qed.

Lemma includes_spec (s sub : string) :
  includes s sub = true ↔ ∃ before after, s = before +:+ sub +:+ after.
Proof.
  split.
  - induction s as [|c s IH]; simpl; intros H.
    + rewrite orb_false_r in H. apply startsWith_inv in H as [t Ht].
      by exists EmptyString, t.
    + apply orb_true_iff in H as [H|H].
      * apply startsWith_inv in H as [t Ht]. by exists EmptyString, t.
      * destruct (IH H) as (b & a & ->). by exists (String c b), a.
  - intros (before & after & ->).
    induction before as [|c b IH].
    + rewrite app_nil_str. apply includes_startsWith, startsWith_app.
    + rewrite app_cons_str. simpl. rewrite IH. apply orb_true_r.
Qed.

Lemma indexOf_includes (s sub : string) :
  includes s sub = true ↔ 0 ≤ indexOf s sub.
Proof.
  induction s as [|c s IH]; simpl.
  - destruct (startsWith EmptyString sub); simpl; split; (done || lia).
  - destruct (startsWith (String c s) sub); simpl; [split; (done || lia)|].
    rewrite IH. destruct (Z.ltb_spec (indexOf s sub) 0); lia.
Qed.

Lemma indexOf_none (s sub : string) :
  includes s sub = false ↔ indexOf s sub = -1.
Proof.
  pose proof (indexOf_includes s sub) as Hi.
  assert (Hlow : -1 ≤ indexOf s sub).
  { clear Hi. induction s as [|c s IH]; simpl.
    - destruct (startsWith EmptyString sub); lia.
    - destruct (startsWith (String c s) sub); [lia|].
      destruct (Z.ltb_spec (indexOf s sub) 0); lia. }
  destruct (includes s sub).
  - split; [done|]. intros E. assert (0 ≤ indexOf s sub) by (by apply Hi). lia.
  - split; [|done]. intros _.
    assert (¬ 0 ≤ indexOf s sub) by (intros Hn; apply Hi in Hn; done). lia.
Qed.

(** [indexOf] finds the first occurrence and [substring] cuts there. *)
Lemma indexOf_first (s sub : string) :
  includes s sub = true →
  ∃ before after,
    s = before +:+ sub +:+ after ∧
    indexOf s sub = Z.of_nat (String.length before) ∧
    substring s (indexOf s sub) = sub +:+ after ∧
    ∀ before' after', s = before' +:+ sub +:+ after' →
      (String.length before ≤ String.length before')%nat.
Proof.
  induction s as [|c s IH]; simpl; intros H.
  - rewrite orb_false_r in H. rewrite H.
    destruct (startsWith_inv _ _ H) as [t Ht].
    exists EmptyString, t. repeat split; [done| |simpl; lia].
    by rewrite Ht.
  - destruct (startsWith (String c s) sub) eqn:Hs; simpl in H.
    + destruct (startsWith_inv _ _ Hs) as [t Ht].
      exists EmptyString, t. repeat split; [done| |simpl; lia].
      by rewrite Ht.
    + destruct (IH H) as (b & a & Hsplit & Hidx & Hsub & Hmin).
      exists (String c b), a.
      assert (Hnn : 0 ≤ indexOf s sub) by (by apply indexOf_includes).
      destruct (Z.ltb_spec (indexOf s sub) 0); [lia|].
      repeat split.
      * rewrite app_cons_str. by rewrite <- Hsplit.
      * rewrite Hidx. simpl String.length. lia.
      * unfold substring in *.
        replace (Z.to_nat (Z.max 0 (indexOf s sub + 1)))
          with (S (Z.to_nat (Z.max 0 (indexOf s sub)))) by lia.
        simpl. exact Hsub.
      * intros b' a' Heq. destruct b' as [|c' b'].
        -- rewrite app_nil_str in Heq. rewrite Heq, startsWith_app in Hs. done.
        -- rewrite app_cons_str in Heq. injection Heq as -> Heq.
           specialize (Hmin _ _ Heq). simpl. lia.
Qed.

End StringFacts.

(** ** Outcomes *)

Section EffectFacts.
Import Effect.
Context {E A B : Type}.

Lemma bind_returned (m : M E A) (k : A → M E B) a l :
  m = (Returned a, l) →
  bind m k = (fst (k a), l ++ snd (k a)).
Proof. intros ->. simpl. by destruct (k a). Qed.

Lemma bind_thrown (m : M E A) (k : A → M E B) e l :
  m = (Thrown e, l) → bind m k = (Thrown e, l).
Proof. by intros ->. Qed.

Lemma fst_bind_returned (m : M E A) (k : A → M E B) a :
  fst m = Returned a → fst (bind m k) = fst (k a).
Proof. destruct m as [[]]; simpl; intros [=->]. by destruct (k a). Qed.

Lemma snd_bind_returned (m : M E A) (k : A → M E B) a :
  fst m = Returned a → snd (bind m k) = snd m ++ snd (k a).
Proof. destruct m as [[]]; simpl; intros [=->]. by destruct (k a). Qed.

Lemma fst_bind (m : M E A) (k : A → M E B) :
  fst (bind m k) = match fst m with
                   | Returned a => fst (k a)
                   | Thrown e => Thrown e
                   | Exited n => Exited n
                   end.
Proof. destruct m as [[]]; simpl; [by destruct (k a)|done..]. Qed.

Lemma snd_bind (m : M E A) (k : A → M E B) :
  snd (bind m k) = snd m ++ match fst m with
                            | Returned a => snd (k a)
                            | _ => []
                            end.
Proof.
  destruct m as [[]]; simpl; [by destruct (k a)|by rewrite app_nil_r..].
Qed.

End EffectFacts.

(** ** The sandbox plugin *)

Section SandboxFacts.
Import Effect Js JsString Sandbox.
Variable env : Env.

(** [sandboxResult] never calls the resolver. *)
Lemma sandboxResult_no_resolve result :
  resolverCalls (snd (sandboxResult env result)) = [].
Proof.
  unfold sandboxResult.
  destruct (hasErrors result); [done|].
  destruct (pathLike (path result)); [|done]. simpl.
  destruct (startsWith (path result) (execroot env)); [done|]. simpl.
  destruct (includes (path result) (bindir env)); [|done]. simpl.
  by destruct (logDebug env).
Qed.

(** The three outcomes of lines 76-94, by the two string tests. *)
Lemma sandboxResult_inside result :
  hasErrors result = false → pathLike (path result) = true →
  startsWith (path result) (execroot env) = true →
  sandboxResult env result = (Returned result, []).
Proof. unfold sandboxResult. by intros -> -> ->. Qed.

Lemma sandboxResult_escape result :
  hasErrors result = false → pathLike (path result) = true →
  startsWith (path result) (execroot env) = false →
  includes (path result) (bindir env) = false →
  sandboxResult env result =
    (Thrown (Error (escapeMessage env (path result))), []).
Proof. unfold sandboxResult. by intros -> -> -> ->. Qed.

Lemma sandboxResult_corrected result :
  hasErrors result = false → pathLike (path result) = true →
  startsWith (path result) (execroot env) = false →
  includes (path result) (bindir env) = true →
  fst (sandboxResult env result) =
    Returned (withPath result
      (NodePath.join (execroot env)
         (substring (path result) (indexOf (path result) (bindir env))))).
Proof.
  unfold sandboxResult. intros -> -> -> ->. simpl. by destruct (logDebug env).
Qed.

(** The repaired result, field by field. *)
Lemma sandboxResult_corrected_fields result :
  hasErrors result = false → pathLike (path result) = true →
  startsWith (path result) (execroot env) = false →
  includes (path result) (bindir env) = true →
  ∃ returned,
    fst (sandboxResult env result) = Returned returned ∧
    path returned =
      NodePath.join (execroot env)
        (substring (path result) (indexOf (path result) (bindir env))) ∧
    errors returned = errors result ∧
    others returned = others result.
Proof.
  intros Herr Hlike Hout Hin. eexists. split; [by apply sandboxResult_corrected|].
  done.
Qed.

Lemma sandboxResult_passthrough result :
  hasErrors result = true ∨ pathLike (path result) = false →
  sandboxResult env result = (Returned result, []).
Proof.
  unfold sandboxResult. intros [->| ->]; [done|]. by destruct (hasErrors result).
Qed.

End SandboxFacts.

Section SandboxClaims.
Import Effect Js JsString Sandbox.
Variable env : Env.

(** C1. A resolution result that reaches the escape check (no errors, a
    path starting with ".", "/" or a backslash) whose path does not start
    with the execution root but contains the binary output directory is
    returned with its path replaced by [path.join] of the execution root
    and the suffix of the path from the first occurrence of the binary
    output directory on: the [path] of what [resolveInExecroot] returns is
    that joined string, and its [errors] and other fields are those of the
    result. *)
Theorem corrected_path_is_execroot_joined_with_bindir_suffix
    importPath otherOptions result :
  fst (resolution env importPath otherOptions) = Returned result →
  hasErrors result = false →
  pathLike (path result) = true →
  startsWith (path result) (execroot env) = false →
  includes (path result) (bindir env) = true →
  ∃ before after returned,
    path result = before +:+ bindir env +:+ after ∧
    (∀ before' after', path result = before' +:+ bindir env +:+ after' →
       (String.length before ≤ String.length before')%nat) ∧
    substring (path result) (indexOf (path result) (bindir env))
      = bindir env +:+ after ∧
    fst (resolveInExecroot env importPath otherOptions) = Returned returned ∧
    path returned = NodePath.join (execroot env) (bindir env +:+ after) ∧
    errors returned = errors result ∧
    others returned = others result.
Proof.
  intros Hres Herr Hlike Hout Hin.
  destruct (indexOf_first _ _ Hin) as (before & after & Hsplit & _ & Hsub & Hmin).
  destruct (sandboxResult_corrected_fields env result Herr Hlike Hout Hin)
    as (returned & Hret & Hpath & Herrs & Hoth).
  exists before, after, returned. split; [done|]. split; [done|].
  split; [done|]. split; [|by rewrite Hpath, Hsub].
  unfold resolveInExecroot. by rewrite (fst_bind_returned _ _ _ Hres).
Qed.

(** C2, as the code has it. A resolution result that reaches the escape
    check and whose path neither starts with the execution root nor
    contains the binary output directory makes [resolveInExecroot] throw
    an error whose message contains the offending path and the binary
    output directory. *)
Theorem escape_error_names_path_and_bindir importPath otherOptions result :
  fst (resolution env importPath otherOptions) = Returned result →
  hasErrors result = false →
  pathLike (path result) = true →
  startsWith (path result) (execroot env) = false →
  includes (path result) (bindir env) = false →
  ∃ message,
    fst (resolveInExecroot env importPath otherOptions) = Thrown (Error message) ∧
    includes message (path result) = true ∧
    includes message (bindir env) = true.
Proof.
  intros Hres Herr Hlike Hout Hnot.
  exists (escapeMessage env (path result)). split; [|split].
  - unfold resolveInExecroot. rewrite (fst_bind_returned _ _ _ Hres).
    by rewrite sandboxResult_escape.
  - apply includes_spec.
    exists ("Error: esbuild resolved a path outside of BAZEL_BINDIR (" +:+
            bindir env +:+ "): "), EmptyString.
    unfold escapeMessage.
    by rewrite !app_assoc_str, app_nil_r_str.
  - apply includes_spec.
    exists "Error: esbuild resolved a path outside of BAZEL_BINDIR (",
           ("): " +:+ path result).
    done.
Qed.

(** C6. For a relative specifier whose joined path exists and is not a
    symbolic link, the fast path sets the result to [{path: joined}] after
    the one [lstat] call, and [resolveInExecroot] goes on to the escape
    check with that result without ever calling [build.resolve]; when the
    joined path starts with the execroot that result is what is returned. *)
Theorem fast_path_returns_joined_path importPath otherOptions :
  startsWith importPath "." = true →
  lstat env (NodePath.join (resolveDir otherOptions) importPath)
    = FsOk {| isSymbolicLink := false |} →
  let joined := NodePath.join (resolveDir otherOptions) importPath in
  let result := {| path := joined; errors := None; others := ∅ |} in
  fastPath env importPath otherOptions = (Returned (Some result), [Lstat joined]) ∧
  resolution env importPath otherOptions = (Returned result, [Lstat joined]) ∧
  resolverCalls (snd (resolveInExecroot env importPath otherOptions)) = [] ∧
  fst (resolveInExecroot env importPath otherOptions)
    = fst (sandboxResult env result) ∧
  (startsWith joined (execroot env) = true →
   resolveInExecroot env importPath otherOptions = (Returned result, [Lstat joined])).
Proof.
  intros Hrel Hstat joined result.
  assert (Hfast : fastPath env importPath otherOptions
                  = (Returned (Some result), [Lstat joined])).
  { unfold fastPath. rewrite Hrel, Hstat. reflexivity. }
  assert (Hres : resolution env importPath otherOptions
                 = (Returned result, [Lstat joined])).
  { unfold resolution. rewrite Hfast. reflexivity. }
  split; [done|]. split; [done|].
  unfold resolveInExecroot. rewrite (bind_returned _ _ _ _ Hres). simpl.
  split; [apply sandboxResult_no_resolve|]. split; [done|].
  intros Hinside. unfold sandboxResult. simpl. fold joined. rewrite Hinside.
  by destruct (pathLike joined).
Qed.


(** C9. For a result that reaches the escape check, the outcome is
    decided by the strings alone: the result is returned as it is exactly
    when its path has the execroot string as a prefix; otherwise it is
    repaired when the bindir string occurs anywhere in the path, by
    cutting the path at the first occurrence (the returned [path] is
    [path.join] of the execroot and the part from that occurrence on, the
    [errors] and other fields are kept), and the error is thrown when the
    bindir string occurs nowhere. *)
Theorem escape_check_is_string_matching result :
  hasErrors result = false →
  pathLike (path result) = true →
  ((∃ rest, path result = execroot env +:+ rest) →
     sandboxResult env result = (Returned result, [])) ∧
  ((¬ ∃ rest, path result = execroot env +:+ rest) →
     ((∃ before after, path result = before +:+ bindir env +:+ after) →
        ∃ before after returned,
          path result = before +:+ bindir env +:+ after ∧
          (∀ before' after', path result = before' +:+ bindir env +:+ after' →
             (String.length before ≤ String.length before')%nat) ∧
          substring (path result) (indexOf (path result) (bindir env))
            = bindir env +:+ after ∧
          fst (sandboxResult env result) = Returned returned ∧
          path returned = NodePath.join (execroot env) (bindir env +:+ after) ∧
          errors returned = errors result ∧
          others returned = others result) ∧
     ((¬ ∃ before after, path result = before +:+ bindir env +:+ after) →
        sandboxResult env result =
          (Thrown (Error (escapeMessage env (path result))), []))).
Proof.
  intros Herr Hlike. split; [|intros Hout; split].
  - intros Hin. apply sandboxResult_inside; [done..|by apply startsWith_spec].
  - intros Hin. apply includes_spec in Hin.
    assert (Hs : startsWith (path result) (execroot env) = false).
    { destruct (startsWith _ _) eqn:E; [|done].
      by apply startsWith_spec in E. }
    destruct (indexOf_first _ _ Hin) as (before & after & Hsplit & _ & Hsub & Hmin).
    destruct (sandboxResult_corrected_fields env result Herr Hlike Hs Hin)
      as (returned & Hret & Hpath & Herrs & Hoth).
    exists before, after, returned. split; [done|]. split; [done|].
    split; [done|]. split; [done|]. by rewrite Hpath, Hsub.
  - intros Hnot.
    assert (Hs : startsWith (path result) (execroot env) = false).
    { destruct (startsWith _ _) eqn:E; [|done].
      by apply startsWith_spec in E. }
    apply sandboxResult_escape; [done..|].
    destruct (includes _ _) eqn:E; [|done]. by apply includes_spec in E.
Qed.

(** C10, as the code has it. When the joined path of a relative specifier
    is a symbolic link, the fast path takes the stored link target itself
    as the resolved path (it is not joined to the link's directory); when
    that target starts with ".", "/" or a backslash, does not start with
    the execroot string and does not contain the bindir string,
    [resolveInExecroot] throws the sandbox-escape error. *)
Theorem symlink_target_is_used_unjoined importPath otherOptions target :
  startsWith importPath "." = true →
  lstat env (NodePath.join (resolveDir otherOptions) importPath)
    = FsOk {| isSymbolicLink := true |} →
  readlink env (NodePath.join (resolveDir otherOptions) importPath)
    = FsOk target →
  let joined := NodePath.join (resolveDir otherOptions) importPath in
  resolution env importPath otherOptions =
    (Returned {| path := target; errors := None; others := ∅ |},
     [Lstat joined; Readlink joined]) ∧
  (pathLike target = true →
   startsWith target (execroot env) = false →
   includes target (bindir env) = false →
   fst (resolveInExecroot env importPath otherOptions)
     = Thrown (Error (escapeMessage env target))).
Proof.
  intros Hrel Hstat Hlink joined.
  assert (Hres : resolution env importPath otherOptions =
    (Returned {| path := target; errors := None; others := ∅ |},
     [Lstat joined; Readlink joined])).
  { unfold resolution, fastPath. rewrite Hrel, Hstat. simpl.
    rewrite Hlink. reflexivity. }
  split; [done|]. intros Hlike Hout Hnot.
  unfold resolveInExecroot. rewrite fst_bind, Hres. simpl.
  by rewrite sandboxResult_escape.
Qed.

(** The recursion guard, where it works: a marked request is answered at
    once with [undefined] and nothing is done. *)
Lemma onResolve_marked importPath otherOptions :
  marked (pluginData otherOptions) = true →
  guard otherOptions = None ∧
  onResolve env importPath otherOptions = (Returned None, []).
Proof.
  unfold marked, onResolve, guard. intros [-> ->]%andb_true_iff. done.
Qed.

(** The recursion guard, where it works: forwarding data that is falsy or
    an ordinary object comes out as an object carrying the marker, and that
    is what [resolveInExecroot] is called with. *)
Lemma onResolve_marks importPath otherOptions :
  marked (pluginData otherOptions) = false →
  pdTruthy (pluginData otherOptions) = false
    ∨ (∃ props, pluginData otherOptions = PDObject props) →
  ∃ otherOptions',
    guard otherOptions = Some otherOptions' ∧
    marked (pluginData otherOptions') = true ∧
    resolveDir otherOptions' = resolveDir otherOptions ∧
    onResolve env importPath otherOptions =
      (let* result := resolveInExecroot env importPath otherOptions' in
       ret (Some result)).
Proof.
  unfold marked, onResolve, guard. intros Hm [Hf | [props Hp]].
  - rewrite Hf. eexists. split; [done|]. split; [|done].
    simpl. unfold marked. simpl. by rewrite lookup_insert_eq.
  - rewrite Hp in *. simpl in *. rewrite Hm.
    eexists. split; [done|]. split; [|done].
    simpl. unfold marked. simpl. by rewrite lookup_insert_eq.
Qed.

(** Truthy forwarding data that is not an ordinary object (a primitive,
    or an object that takes no new property) and does not carry the marker
    never receives it: the request goes on as it came. *)
Lemma guard_primitive otherOptions :
  pdTruthy (pluginData otherOptions) = true →
  marked (pluginData otherOptions) = false →
  (∀ props, pluginData otherOptions ≠ PDObject props) →
  guard otherOptions = Some otherOptions.
Proof.
  unfold guard, marked. intros -> Hm Hprim.
  destruct otherOptions as [i n d k pd]; simpl in *.
  destruct pd; simpl in *; try done.
  - by destruct (Hprim props).
  - by rewrite Hm.
Qed.

End SandboxClaims.

(** ** The launcher *)

Section LauncherFacts.
Import Effect Js Launcher.
Variable configFilePath : string.
Variable existingArgs : gmap string value.

Local Abbreviation step := (mergeEntry configFilePath existingArgs).

Local Arguments mergeEntry : simpl never.

Lemma warningsNaming_app key l1 l2 :
  warningsNaming key (l1 ++ l2) = warningsNaming key l1 ++ warningsNaming key l2.
Proof. apply List.filter_app. Qed.

(** The callback, case by case. *)
Lemma mergeEntry_unfold prev key value :
  step prev (key, value) =
    if nullish value then ret prev
    else if bool_decide (key ∈ IGNORED_CONFIG_KEYS) then
      (Returned prev, [IgnoredWarning key configFilePath])
    else if bool_decide (key ∈ MERGE_CONFIG_KEYS) then
      match existingArgs !! "hasOwnProperty" with
      | Some _ =>
          throw (TypeError "existingArgs.hasOwnProperty is not a function")
      | None =>
          match existingArgs !! key with
          | Some existing =>
              match value with
              | VArray elems =>
                  match iterate existing with
                  | Some elems' =>
                      ret (assign key (VArray (elems ++ elems')) prev)
                  | None => throw (TypeError "existingArgs[key] is not iterable")
                  end
              | VObject props =>
                  ret (assign key (VObject (spread props (ownProps existing))) prev)
              | _ => (Returned prev, [UnmergeableWarning key configFilePath])
              end
          | None => ret (assign key value prev)
          end
      end
    else ret (assign key value prev).
Proof.
  unfold mergeEntry, hasOwnProperty.
  destruct (nullish value); [done|].
  destruct (bool_decide (key ∈ IGNORED_CONFIG_KEYS)); [done|].
  destruct (bool_decide (key ∈ MERGE_CONFIG_KEYS)); [|done].
  destruct (existingArgs !! "hasOwnProperty"); [done|].
  destruct (existingArgs !! key) as [existing|] eqn:Hex; simpl; [|done].
  destruct value; try done. by destruct (iterate existing).
Qed.

Lemma assign_ne key' v prev key :
  key' ≠ key → assign key' v prev !! key = prev !! key.
Proof.
  intros Hne. unfold assign. destruct (String.eqb key' "__proto__"); [done|].
  by rewrite lookup_insert_ne.
Qed.

Lemma assign_eq key v prev :
  key ≠ "__proto__" → assign key v prev !! key = Some v.
Proof.
  intros Hne. unfold assign. destruct (String.eqb_spec key "__proto__"); [done|].
  by rewrite lookup_insert_eq.
Qed.

(** An entry leaves the other keys and their warnings alone. *)
Lemma mergeEntry_frame prev key' value' prev' log key :
  key' ≠ key →
  step prev (key', value') = (Returned prev', log) →
  prev' !! key = prev !! key ∧ warningsNaming key log = [].
Proof.
  intros Hne. rewrite mergeEntry_unfold. unfold warningsNaming.
  repeat case_match; intros Hstep; cbv [ret throw emit bind] in Hstep;
    simplify_eq; simpl;
    rewrite ?assign_ne by done;
    rewrite ?bool_decide_false by congruence; done.
Qed.

Lemma foldM_frame l acc prev log key :
  (∀ value, (key, value) ∉ l) →
  foldM step l acc = (Returned prev, log) →
  prev !! key = acc !! key ∧ warningsNaming key log = [].
Proof.
  revert acc log. induction l as [|[key' value'] l IH]; intros acc log Hnot.
  - simpl. unfold ret. by intros [= -> <-].
  - simpl. destruct (step acc (key', value')) as [[acc'| |] l1] eqn:Hstep;
      simpl; [|done..].
    destruct (foldM step l acc') as [r l2] eqn:Hfold. intros [= -> <-].
    assert (key' ≠ key) as Hne.
    { intros ->. apply (Hnot value'). by left. }
    destruct (mergeEntry_frame _ _ _ _ _ key Hne Hstep) as [Hacc Hw1].
    destruct (IH acc' l2) as [Hprev Hw2]; [|done|].
    + intros v Hin. apply (Hnot v). by right.
    + by rewrite warningsNaming_app, Hw1, Hw2, Hprev.
Qed.

(** With distinct keys, what the fold leaves at [key] and says about it
    is what the one entry for [key] wrote and said. *)
Lemma foldM_entry l acc prev log key value :
  NoDup l.*1 →
  (key, value) ∈ l →
  foldM step l acc = (Returned prev, log) →
  ∃ prev1 prev2 log2,
    step prev1 (key, value) = (Returned prev2, log2) ∧
    prev1 !! key = acc !! key ∧
    prev !! key = prev2 !! key ∧
    warningsNaming key log = warningsNaming key log2.
Proof.
  revert acc log. induction l as [|[key' value'] l IH]; intros acc log Hnd Hin.
  - by apply elem_of_nil in Hin.
  - simpl. destruct (step acc (key', value')) as [[acc'| |] l1] eqn:Hstep;
      simpl; [|done..].
    destruct (foldM step l acc') as [r l2] eqn:Hfold. intros [= -> <-].
    apply NoDup_cons in Hnd as [Hfresh Hnd].
    apply elem_of_cons in Hin as [[= <- <-]|Hin].
    + exists acc, acc', l1. split; [done|]. split; [done|].
      destruct (foldM_frame l acc' prev l2 key) as [Hprev Hw]; [|done|].
      * intros v Hv. apply Hfresh. apply list_elem_of_fmap. by exists (key, v).
      * by rewrite warningsNaming_app, Hw, app_nil_r.
    + assert (key' ≠ key) as Hne.
      { intros ->. apply Hfresh. apply list_elem_of_fmap. by exists (key, value). }
      destruct (mergeEntry_frame _ _ _ _ _ key Hne Hstep) as [Hacc Hw1].
      destruct (IH acc' l2 Hnd Hin Hfold) as (p1 & p2 & lg & Hs & H1 & H2 & Hw).
      exists p1, p2, lg. split; [done|]. split; [congruence|]. split; [done|].
      by rewrite warningsNaming_app, Hw1, Hw.
Qed.

(** The fold returns when every entry does. *)
Lemma foldM_returns l acc :
  (∀ entry prev, entry ∈ l → ∃ prev' log', step prev entry = (Returned prev', log')) →
  ∃ prev log, foldM step l acc = (Returned prev, log).
Proof.
  revert acc. induction l as [|entry l IH]; intros acc Hall.
  - by eexists _, _.
  - simpl. destruct (Hall entry acc) as (acc' & l1 & ->); [by left|].
    destruct (IH acc') as (prev & l2 & Hfold).
    + intros e pr He. apply Hall. by right.
    + simpl. rewrite Hfold. by eexists _, _.
Qed.

(** The fold throws when one entry throws whatever came before it and the
    others return or throw the same. *)
Lemma foldM_throws l acc entry e :
  entry ∈ l →
  (∀ prev, fst (step prev entry) = Thrown e) →
  (∀ other prev, other ∈ l →
     fst (step prev other) = Thrown e ∨
     ∃ prev' log', step prev other = (Returned prev', log')) →
  fst (foldM step l acc) = Thrown e.
Proof.
  revert acc. induction l as [|head l IH]; intros acc Hin Hthrows Hall.
  - by apply elem_of_nil in Hin.
  - simpl. rewrite fst_bind.
    destruct (Hall head acc) as [-> | (acc' & l1 & Hhead)]; [by left|done|].
    rewrite Hhead. simpl.
    apply elem_of_cons in Hin as [->|Hin].
    + specialize (Hthrows acc). by rewrite Hhead in Hthrows.
    + apply IH; [done..|]. intros other prev Hother. apply Hall. by right.
Qed.

End LauncherFacts.

Section ConfigMerge.
Import Effect Js Launcher.
Variable env : Env.
Variables (args : gmap string value) (userArgsFilePath : option string).
Variable configFilePath : string.
Variables existing exports config : gmap string value.

(** The inline arguments, with the user's parameter file if any, are
    [existing]; a configuration file is named; it loads, and its default
    export is the mapping [config]. *)
Hypothesis Hinline : fst (inlineArgs env args userArgsFilePath) = Returned existing.
Hypothesis Hnamed : configFilePath ≠ "".
Hypothesis Hloads :
  importModule env (NodePath.join (cwd env) configFilePath) = Some exports.
Hypothesis Hdefault : exports !! "default" = Some (VObject config).

Local Abbreviation step := (mergeEntry configFilePath existing).
Local Arguments mergeEntry : simpl never.

Lemma inlineArgs_silent : inlineArgs env args userArgsFilePath = (Returned existing, []).
Proof.
  revert Hinline. unfold inlineArgs, getEsbuildArgs.
  destruct (flagSet userArgsFilePath) as [p|]; [|by intros [= <-]].
  destruct (readParams env p); simpl; by intros [= <-].
Qed.

Lemma processConfigFile_fold :
  processConfigFile env configFilePath existing
    = foldM step (map_to_list config) ∅.
Proof. unfold processConfigFile. by rewrite Hloads, Hdefault. Qed.

Lemma assembleArgs_fold :
  assembleArgs env args userArgsFilePath (Some configFilePath)
    = (let* prev := foldM step (map_to_list config) ∅ in
       ret (spread existing prev)).
Proof.
  unfold assembleArgs. rewrite inlineArgs_silent. simpl.
  destruct (String.eqb_spec configFilePath ""); [done|].
  rewrite processConfigFile_fold.
  destruct (let* prev := _ in _) as [o l]. done.
Qed.

(** Every entry of the configuration is folded without an exception. *)
Lemma entries_return :
  foldReturns config existing = true →
  ∀ entry prev, entry ∈ map_to_list config →
    ∃ prev' log', step prev entry = (Returned prev', log').
Proof.
  intros Hsafe [key value] prev Hin%elem_of_map_to_list.
  rewrite mergeEntry_unfold.
  destruct (nullish value) eqn:Hnull; [by eexists _, _|].
  destruct (bool_decide (key ∈ IGNORED_CONFIG_KEYS)); [by eexists _, _|].
  destruct (bool_decide_reflect (key ∈ MERGE_CONFIG_KEYS)) as [Hm|_];
    [|by eexists _, _].
  apply list_elem_of_singleton in Hm as ->.
  unfold foldReturns, shadowedHasOwnProperty, defineSpreads in Hsafe.
  rewrite Hin in Hsafe.
  destruct (existing !! "hasOwnProperty"); [by rewrite Hnull in Hsafe|].
  destruct (existing !! "define") as [ex|] eqn:Hex; [|by eexists _, _].
  destruct value; try by eexists _, _.
  simpl in Hsafe. destruct (iterate ex); [by eexists _, _|done].
Qed.

(** What the assembled specification holds at a key of the configuration,
    in terms of the one step of the fold that handles the key. *)
Lemma merged_at key value :
  foldReturns config existing = true →
  config !! key = Some value →
  ∃ merged log prev1 prev2 log2,
    assembleArgs env args userArgsFilePath (Some configFilePath)
      = (Returned merged, log) ∧
    step prev1 (key, value) = (Returned prev2, log2) ∧
    prev1 !! key = None ∧
    merged !! key = (prev2 ∪ existing) !! key ∧
    warningsNaming key log = warningsNaming key log2.
Proof.
  intros Hsafe Hkey.
  destruct (foldM_returns configFilePath existing (map_to_list config) ∅
              (entries_return Hsafe)) as (prev & log & Hfold).
  destruct (foldM_entry configFilePath existing _ _ _ _ key value
              (NoDup_fst_map_to_list config)
              (proj2 (elem_of_map_to_list _ _ _) Hkey) Hfold)
    as (prev1 & prev2 & log2 & Hstep & H1 & H2 & Hw).
  exists (spread existing prev), log, prev1, prev2, log2.
  split; [|split; [done|split; [done|split]]].
  - rewrite assembleArgs_fold, Hfold. simpl. by rewrite app_nil_r.
  - unfold spread. rewrite !lookup_union. by rewrite H2.
  - done.
Qed.

(** The entries other than the one for "define" never throw. *)
Lemma other_entries_return key value prev :
  key ≠ "define" →
  ∃ prev' log', step prev (key, value) = (Returned prev', log').
Proof.
  intros Hne. rewrite mergeEntry_unfold.
  destruct (nullish value); [by eexists _, _|].
  destruct (bool_decide (key ∈ IGNORED_CONFIG_KEYS)); [by eexists _, _|].
  destruct (bool_decide_reflect (key ∈ MERGE_CONFIG_KEYS)) as [Hm|_];
    [|by eexists _, _].
  by apply list_elem_of_singleton in Hm.
Qed.

(** The fold throws what the entry for "define" throws. *)
Lemma define_entry_throws value e :
  config !! "define" = Some value →
  (∀ prev, fst (step prev ("define", value)) = Thrown e) →
  fst (assembleArgs env args userArgsFilePath (Some configFilePath)) = Thrown e.
Proof.
  intros Hcfg Hthrows. rewrite assembleArgs_fold, fst_bind.
  rewrite (foldM_throws configFilePath existing _ _ ("define", value) e);
    [done| |done|].
  - by apply elem_of_map_to_list.
  - intros [key value'] prev Hin%elem_of_map_to_list.
    destruct (decide (key = "define")) as [->|Hne].
    + left. rewrite Hcfg in Hin. injection Hin as <-. apply Hthrows.
    + right. by apply other_entries_return.
Qed.

(** [shadowedHasOwnProperty] is one of the two ways the fold throws. *)
Lemma shadowed_hasOwnProperty_throws :
  shadowedHasOwnProperty config existing = true →
  fst (assembleArgs env args userArgsFilePath (Some configFilePath))
    = Thrown (TypeError "existingArgs.hasOwnProperty is not a function").
Proof.
  intros Hbad. unfold shadowedHasOwnProperty in Hbad.
  destruct (config !! "define") as [value|] eqn:Hcfg; [|done].
  destruct (existing !! "hasOwnProperty") eqn:Hhas; [|done].
  apply negb_true_iff in Hbad.
  apply (define_entry_throws value); [done|].
  intros prev. rewrite mergeEntry_unfold, Hbad, Hhas. done.
Qed.

(** A "define" that cannot be spread is the other. *)
Lemma define_not_spreadable_throws :
  shadowedHasOwnProperty config existing = false →
  defineSpreads config existing = false →
  fst (assembleArgs env args userArgsFilePath (Some configFilePath))
    = Thrown (TypeError "existingArgs[key] is not iterable").
Proof.
  intros Hown Hbad. unfold defineSpreads in Hbad.
  unfold shadowedHasOwnProperty in Hown.
  destruct (config !! "define") as [[]|] eqn:Hcfg; try done.
  destruct (existing !! "define") as [ex|] eqn:Hex; [|done].
  destruct (iterate ex) eqn:Hit; [done|].
  destruct (existing !! "hasOwnProperty") eqn:Hhas; [done|].
  apply (define_entry_throws (VArray elems)); [done|].
  intros prev. rewrite mergeEntry_unfold, Hhas, Hex, Hit. done.
Qed.


(** C4. In a run that assembles a build specification (the configuration
    has no property named [__proto__], and its "define" entry, if any, is
    merged without an exception), for an ignored key that the configuration
    module supplies with a value other than [null] and [undefined], the
    assembled specification has at that key what the inline and
    parameter-file arguments had (or still lacks it), and the log holds
    exactly one warning naming the key, the "will be ignored" one. *)
Theorem ignored_key_is_kept_and_warned_once key value :
  config !! "__proto__" = None →
  key ∈ IGNORED_CONFIG_KEYS →
  config !! key = Some value →
  nullish value = false →
  foldReturns config existing = true →
  ∃ merged log,
    assembleArgs env args userArgsFilePath (Some configFilePath)
      = (Returned merged, log) ∧
    merged !! key = existing !! key ∧
    warningsNaming key log = [IgnoredWarning key configFilePath].
Proof.
  intros _ Hign Hkey Hnull Hsafe.
  destruct (merged_at key value Hsafe Hkey)
    as (merged & log & prev1 & prev2 & log2 & Hrun & Hstep & Hnone & Hat & Hw).
  exists merged, log. split; [done|].
  rewrite mergeEntry_unfold, Hnull in Hstep.
  rewrite bool_decide_true in Hstep by done.
  injection Hstep as <- <-.
  split.
  - by rewrite Hat, lookup_union, Hnone, (left_id None _).
  - rewrite Hw. unfold warningsNaming. simpl. by rewrite bool_decide_true.
Qed.

(** C5. For "define", where the configuration has no property named
    [__proto__] and the existing arguments have none named
    [hasOwnProperty]: when the configuration module and the existing
    arguments both give a mapping, the assembled specification holds their
    shallow merge, an existing entry winning over a configuration entry
    of the same name; when both give a sequence, it holds the
    configuration's elements followed by the existing ones. *)
Theorem define_is_merged_existing_wins :
  config !! "__proto__" = None →
  existing !! "hasOwnProperty" = None →
  (∀ fromConfig fromArgs,
     config !! "define" = Some (VObject fromConfig) →
     existing !! "define" = Some (VObject fromArgs) →
     ∃ merged log defines,
       assembleArgs env args userArgsFilePath (Some configFilePath)
         = (Returned merged, log) ∧
       merged !! "define" = Some (VObject defines) ∧
       ∀ name, defines !! name =
               match fromArgs !! name with
               | Some v => Some v
               | None => fromConfig !! name
               end) ∧
  (∀ fromConfig fromArgs,
     config !! "define" = Some (VArray fromConfig) →
     existing !! "define" = Some (VArray fromArgs) →
     ∃ merged log,
       assembleArgs env args userArgsFilePath (Some configFilePath)
         = (Returned merged, log) ∧
       merged !! "define" = Some (VArray (fromConfig ++ fromArgs))).
Proof.
  intros _ Hown. split; intros fromConfig fromArgs Hcfg Hex.
  - assert (Hsafe : foldReturns config existing = true).
    { unfold foldReturns, shadowedHasOwnProperty, defineSpreads.
      by rewrite Hcfg, Hown. }
    destruct (merged_at "define" _ Hsafe Hcfg)
      as (merged & log & prev1 & prev2 & log2 & Hrun & Hstep & _ & Hat & _).
    rewrite mergeEntry_unfold, Hown, Hex in Hstep. simpl in Hstep.
    injection Hstep as <- _.
    exists merged, log, (spread fromConfig fromArgs).
    split; [done|]. split.
    + rewrite Hat, lookup_union, assign_eq, Hex; done.
    + intros name. unfold spread. rewrite lookup_union.
      by destruct (fromArgs !! name), (fromConfig !! name).
  - assert (Hsafe : foldReturns config existing = true).
    { unfold foldReturns, shadowedHasOwnProperty, defineSpreads.
      by rewrite Hcfg, Hown, Hex. }
    destruct (merged_at "define" _ Hsafe Hcfg)
      as (merged & log & prev1 & prev2 & log2 & Hrun & Hstep & _ & Hat & _).
    rewrite mergeEntry_unfold, Hown, Hex in Hstep. simpl in Hstep.
    injection Hstep as <- _.
    exists merged, log. split; [done|].
    rewrite Hat, lookup_union, assign_eq, Hex; done.
Qed.

End ConfigMerge.

(** ** The claims on sample inputs *)

Section Samples.
Import Effect Js JsString Sandbox Fixture.

(** The example of the specification: with bindir
    bazel-out/k8-fastbuild/bin and execroot /exec, the resolved path
    /outside/bazel-out/k8-fastbuild/bin/x is corrected to
    /exec/bazel-out/k8-fastbuild/bin/x. *)
Example corrected_path_example :
  resolveInExecroot sandbox "x" (fromDir "/exec/app" PDUndefined)
    = (Returned (resolved "/exec/bazel-out/k8-fastbuild/bin/x"),
       [BuildResolve "x" (fromDir "/exec/app" PDUndefined)]).
Proof. vm_compute. reflexivity. Qed.

Lemma corrected_path_witness :
  let request := fromDir "/exec/app" PDUndefined in
  let result := resolved "/outside/bazel-out/k8-fastbuild/bin/x" in
  ∃ returned,
    fst (resolveInExecroot sandbox "x" request) = Returned returned ∧
    path returned = "/exec/bazel-out/k8-fastbuild/bin/x" ∧
    errors returned = errors result ∧
    others returned = others result.
Proof.
  intros request result.
  destruct (corrected_path_is_execroot_joined_with_bindir_suffix sandbox
              "x" request result eq_refl eq_refl eq_refl eq_refl eq_refl)
    as (before & after & returned & _ & _ & Hsub & Hret & Hpath & Herr & Hoth).
  exists returned. split; [exact Hret|]. split; [|split; assumption].
  rewrite Hpath, <- Hsub. vm_compute. reflexivity.
Defined.

(** C2 fails as stated: for the path /outside/x, outside both roots, the
    message of the thrown error does not contain the execution root
    /exec. *)
Lemma escape_error_does_not_name_execroot :
  let request := fromDir "/exec/app" PDUndefined in
  let result := resolved "/outside/x" in
  fst (resolution sandbox "stray" request) = Returned result ∧
  hasErrors result = false ∧
  pathLike (path result) = true ∧
  startsWith (path result) (execroot sandbox) = false ∧
  includes (path result) (bindir sandbox) = false ∧
  ¬ ∃ message,
      fst (resolveInExecroot sandbox "stray" request) = Thrown (Error message) ∧
      includes message (path result) = true ∧
      includes message (execroot sandbox) = true.
Proof.
  intros request result. repeat split; try (vm_compute; reflexivity).
  intros (message & Hthrown & _ & Hroot).
  vm_compute in Hthrown. injection Hthrown as <-.
  vm_compute in Hroot. discriminate Hroot.
Qed.

Lemma escape_error_witness :
  let request := fromDir "/exec/app" PDUndefined in
  ∃ message,
    fst (resolveInExecroot sandbox "stray" request) = Thrown (Error message) ∧
    includes message "/outside/x" = true ∧
    includes message (bindir sandbox) = true.
Proof.
  intros request.
  apply (escape_error_names_path_and_bindir sandbox "stray" request
           (resolved "/outside/x")); vm_compute; reflexivity.
Defined.

Lemma fast_path_witness :
  let request := fromDir "/exec/app" PDUndefined in
  let result := {| path := "/exec/app/lib.js"; errors := None; others := ∅ |} in
  fastPath sandbox "./lib.js" request
    = (Returned (Some result), [Lstat "/exec/app/lib.js"]) ∧
  resolution sandbox "./lib.js" request
    = (Returned result, [Lstat "/exec/app/lib.js"]) ∧
  resolverCalls (snd (resolveInExecroot sandbox "./lib.js" request)) = [] ∧
  fst (resolveInExecroot sandbox "./lib.js" request)
    = fst (sandboxResult sandbox result) ∧
  (startsWith "/exec/app/lib.js" (execroot sandbox) = true →
   resolveInExecroot sandbox "./lib.js" request
     = (Returned result, [Lstat "/exec/app/lib.js"])).
Proof.
  intros request result.
  apply (fast_path_returns_joined_path sandbox "./lib.js" request);
    vm_compute; reflexivity.
Defined.


(** The examples of C9: /exec-other/x has the string /exec as a prefix and
    is left as it is; a path outside /exec in which the bindir occurs twice
    is cut at the first occurrence; /outside/x, with neither, is
    refused. *)
Lemma string_prefix_witness :
  let twice :=
    resolved "/outside/bazel-out/k8-fastbuild/bin/a/bazel-out/k8-fastbuild/bin/y" in
  sandboxResult sandbox (resolved "/exec-other/x")
    = (Returned (resolved "/exec-other/x"), []) ∧
  (∃ returned,
     fst (sandboxResult sandbox twice) = Returned returned ∧
     path returned
       = "/exec/bazel-out/k8-fastbuild/bin/a/bazel-out/k8-fastbuild/bin/y" ∧
     errors returned = errors twice ∧
     others returned = others twice) ∧
  sandboxResult sandbox (resolved "/outside/x")
    = (Thrown (Error (escapeMessage sandbox "/outside/x")), []).
Proof.
  intros twice. split; [|split].
  - apply (escape_check_is_string_matching sandbox (resolved "/exec-other/x")
             eq_refl eq_refl).
    exists "-other/x". vm_compute. reflexivity.
  - destruct (escape_check_is_string_matching sandbox twice eq_refl eq_refl)
      as [_ Hout].
    destruct Hout as [Hfix _].
    { intros [rest Hrest]. vm_compute in Hrest. discriminate Hrest. }
    destruct Hfix
      as (before & after & returned & _ & _ & Hsub & Hret & Hpath & Herr & Hoth).
    { exists "/outside/", "/a/bazel-out/k8-fastbuild/bin/y".
      vm_compute. reflexivity. }
    exists returned. split; [exact Hret|]. split; [|split; assumption].
    rewrite Hpath, <- Hsub. vm_compute. reflexivity.
  - destruct (escape_check_is_string_matching sandbox (resolved "/outside/x")
                eq_refl eq_refl) as [_ Hout].
    destruct Hout as [_ Hthrow].
    { intros [rest Hrest]. vm_compute in Hrest. discriminate Hrest. }
    apply Hthrow.
    intros Hin%includes_spec. vm_compute in Hin. discriminate Hin.
Defined.

(** C10 fails as stated: the link /exec/app/link.js stores the relative
    target "lib.js", which neither starts with /exec nor contains the
    bindir, and the resolution returns it instead of throwing. *)
Lemma relative_link_target_is_passed_through :
  let request := fromDir "/exec/app" PDUndefined in
  lstat sandbox "/exec/app/link.js" = FsOk {| isSymbolicLink := true |} ∧
  readlink sandbox "/exec/app/link.js" = FsOk "lib.js" ∧
  startsWith "lib.js" "/" = false ∧
  startsWith "lib.js" (execroot sandbox) = false ∧
  includes "lib.js" (bindir sandbox) = false ∧
  resolveInExecroot sandbox "./link.js" request
    = (Returned {| path := "lib.js"; errors := None; others := ∅ |},
       [Lstat "/exec/app/link.js"; Readlink "/exec/app/link.js"]).
Proof. intros request. repeat split; vm_compute; reflexivity. Qed.

Lemma symlink_target_witness :
  let request := fromDir "/exec/app" PDUndefined in
  resolution sandbox "./uplink.js" request =
    (Returned {| path := "../shared/util.js"; errors := None; others := ∅ |},
     [Lstat "/exec/app/uplink.js"; Readlink "/exec/app/uplink.js"]) ∧
  (pathLike "../shared/util.js" = true →
   startsWith "../shared/util.js" (execroot sandbox) = false →
   includes "../shared/util.js" (bindir sandbox) = false →
   fst (resolveInExecroot sandbox "./uplink.js" request)
     = Thrown (Error (escapeMessage sandbox "../shared/util.js"))).
Proof.
  intros request.
  apply (symlink_target_is_used_unjoined sandbox "./uplink.js" request
           "../shared/util.js"); vm_compute; reflexivity.
Defined.

(** C7 fails on the code: a request whose forwarding data is the number 1
    carries no marker, yet the callback goes on to [resolveInExecroot]
    and to [build.resolve] with the request as it came, still without a
    marker. *)
Theorem marker_is_not_set_on_primitive_forwarding_data :
  let request := fromDir "/exec/app" (PDNumber 1) in
  marked (pluginData request) = false ∧
  guard request = Some request ∧
  onResolve sandbox "react" request
    = (Returned (Some (resolved "/exec/node_modules/react/index.js")),
       [BuildResolve "react" request]).
Proof. intros request. repeat split; vm_compute; reflexivity. Qed.

End Samples.

Section LauncherSamples.
Import Effect Js Launcher Fixture.



Lemma ignored_key_witness :
  ∃ merged log,
    assembleArgs project ruleArgs None (Some "esbuild.config.mjs")
      = (Returned merged, log) ∧
    merged !! "bundle" = ruleArgs !! "bundle" ∧
    warningsNaming "bundle" log = [IgnoredWarning "bundle" "esbuild.config.mjs"].
Proof.
  apply (ignored_key_is_kept_and_warned_once project ruleArgs None
           "esbuild.config.mjs" ruleArgs
           {[ "default" := VObject userConfig ]} userConfig) with (value := VBool false).
  - vm_compute. reflexivity.
  - discriminate.
  - vm_compute. reflexivity.
  - vm_compute. reflexivity.
  - vm_compute. reflexivity.
  - compute_done.
  - vm_compute. reflexivity.
  - vm_compute. reflexivity.
  - vm_compute. reflexivity.
Defined.

(** The example of the specification: {A:1,B:2} from the configuration
    module merged with the existing {B:3,C:4} gives {A:1,B:3,C:4}. *)
Example define_example :
  ∃ merged log,
    assembleArgs project ruleArgs None (Some "esbuild.config.mjs")
      = (Returned merged, log) ∧
    merged !! "define"
      = Some (VObject {[ "A" := num 1; "B" := num 3; "C" := num 4 ]}).
Proof. eexists _, _. split; vm_compute; reflexivity. Qed.

Example define_sequence_example :
  ∃ merged log,
    assembleArgs project ruleArgsSeq None (Some "seq.config.mjs")
      = (Returned merged, log) ∧
    merged !! "define"
      = Some (VArray [VString "a"; VString "b"; VString "c"]).
Proof. eexists _, _. split; vm_compute; reflexivity. Qed.

Lemma define_merge_witness :
  (∃ merged log defines,
     assembleArgs project ruleArgs None (Some "esbuild.config.mjs")
       = (Returned merged, log) ∧
     merged !! "define" = Some (VObject defines) ∧
     defines !! "A" = Some (num 1) ∧
     defines !! "B" = Some (num 3) ∧
     defines !! "C" = Some (num 4)) ∧
  (∃ merged log,
     assembleArgs project ruleArgsSeq None (Some "seq.config.mjs")
       = (Returned merged, log) ∧
     merged !! "define" = Some (VArray [VString "a"; VString "b"; VString "c"])).
Proof.
  split.
  - destruct (define_is_merged_existing_wins project ruleArgs None
                "esbuild.config.mjs" ruleArgs
                {[ "default" := VObject userConfig ]} userConfig
                eq_refl ltac:(discriminate) eq_refl eq_refl eq_refl eq_refl)
      as [Hmap _].
    destruct (Hmap {[ "A" := num 1; "B" := num 2 ]}
                   {[ "B" := num 3; "C" := num 4 ]} eq_refl eq_refl)
      as (merged & log & defines & Hrun & Hdef & Hall).
    exists merged, log, defines. split; [done|]. split; [done|].
    rewrite !Hall. repeat split; vm_compute; reflexivity.
  - destruct (define_is_merged_existing_wins project ruleArgsSeq None
                "seq.config.mjs" ruleArgsSeq
                {[ "default" := VObject userConfigSeq ]} userConfigSeq
                eq_refl ltac:(discriminate) eq_refl eq_refl eq_refl eq_refl)
      as [_ Hseq].
    exact (Hseq [VString "a"; VString "b"] [VString "c"] eq_refl eq_refl).
Defined.

End LauncherSamples.


(** * Further properties of the plug-in *)

Section SandboxEffects.
Import Effect Js JsString Sandbox SandboxLog.
Variable env : Env.

(** The shapes a run of the fast path can take. *)
Lemma fastPath_shapes importPath otherOptions :
  let joined := NodePath.join (resolveDir otherOptions) importPath in
  (startsWith importPath "." = false ∧
   fastPath env importPath otherOptions = (Returned None, [])) ∨
  (startsWith importPath "." = true ∧
   ∃ out log,
     fastPath env importPath otherOptions = (out, log) ∧
     (log = [Lstat joined] ∨ log = [Lstat joined; Readlink joined]) ∧
     (∀ status, out ≠ Exited status)).
Proof.
  intros joined. unfold fastPath. fold joined.
  destruct (startsWith importPath ".") eqn:Hrel; [right|left; done].
  split; [done|].
  destruct (lstat env joined) as [[[]]|code] eqn:Hstat; simpl.
  - destruct (readlink env joined) as [target|code] eqn:Hlink; simpl.
    + eexists _, _. split; [done|]. split; [by right|done].
    + case_bool_decide; eexists _, _; (split; [done|]); (split; [by right|done]).
  - eexists _, _. split; [done|]. split; [by left|done].
  - case_bool_decide; eexists _, _; (split; [done|]); (split; [by left|done]).
Qed.

Lemma sandboxResult_no_fs result : fsCalls (snd (sandboxResult env result)) = [].
Proof.
  unfold sandboxResult.
  destruct (hasErrors result); [done|].
  destruct (pathLike (path result)); [|done]. simpl.
  destruct (startsWith (path result) (execroot env)); [done|]. simpl.
  destruct (includes (path result) (bindir env)); [|done]. simpl.
  by destruct (logDebug env).
Qed.

(** Counting the events of one kind in a sequence of two computations. *)
Lemma count_bind_le {A B} (f : event → bool) (m : M event A) (k : A → M event B) n1 n2 :
  (length (List.filter f (snd m)) ≤ n1)%nat →
  (∀ a, (length (List.filter f (snd (k a))) ≤ n2)%nat) →
  (length (List.filter f (snd (bind m k))) ≤ n1 + n2)%nat.
Proof.
  intros H1 H2. rewrite snd_bind, List.filter_app, length_app.
  destruct (fst m) as [a| |]; [specialize (H2 a)|simpl..]; lia.
Qed.

Lemma fastPath_counts importPath otherOptions :
  resolverCalls (snd (fastPath env importPath otherOptions)) = [] ∧
  (length (fsCalls (snd (fastPath env importPath otherOptions))) ≤ 2)%nat.
Proof.
  destruct (fastPath_shapes importPath otherOptions)
    as [[_ ->] | (_ & out & log & -> & [-> | ->] & _)]; simpl; split; (done || lia).
Qed.

(** X1. Whatever the request, one invocation of the callback calls
    [build.resolve] at most once and the file system at most twice (one
    [lstat], then at most one [readlink]): a link is followed one level and
    nothing is retried. *)
Theorem callback_effects_are_bounded importPath otherOptions :
  (length (resolverCalls (snd (onResolve env importPath otherOptions))) ≤ 1)%nat ∧
  (length (fsCalls (snd (onResolve env importPath otherOptions))) ≤ 2)%nat.
Proof.
  unfold onResolve. destruct (guard otherOptions) as [request|]; [|simpl; lia].
  destruct (fastPath_counts importPath request) as [Hr Hf].
  unfold resolverCalls, fsCalls in *.
  split.
  - apply (count_bind_le _ _ _ 1 0); [|done].
    apply (count_bind_le _ _ _ 1 0);
      [|intros r; pose proof (sandboxResult_no_resolve env r) as Hn;
        unfold resolverCalls in Hn; by rewrite Hn].
    apply (count_bind_le _ _ _ 0 1); [by rewrite Hr|].
    intros [r|]; [simpl; lia|]. unfold buildResolve. simpl.
    destruct (resolve env importPath request); simpl; lia.
  - apply (count_bind_le _ _ _ 2 0); [|done].
    apply (count_bind_le _ _ _ 2 0);
      [|intros r; pose proof (sandboxResult_no_fs r) as Hn;
        unfold fsCalls in Hn; by rewrite Hn].
    apply (count_bind_le _ _ _ 2 0); [done|].
    intros [r|]; [simpl; lia|]. unfold buildResolve. simpl.
    destruct (resolve env importPath request); simpl; lia.
Qed.

(** [resolveInExecroot], path by path. *)
Lemma resolveInExecroot_unfold importPath otherOptions :
  resolveInExecroot env importPath otherOptions =
    match fastPath env importPath otherOptions with
    | (Returned (Some r), l) =>
        (fst (sandboxResult env r), l ++ snd (sandboxResult env r))
    | (Returned None, l) =>
        match resolve env importPath otherOptions with
        | inr r => (fst (sandboxResult env r),
                    l ++ BuildResolve importPath otherOptions :: snd (sandboxResult env r))
        | inl e => (Thrown e, l ++ [BuildResolve importPath otherOptions])
        end
    | (Thrown e, l) => (Thrown e, l)
    | (Exited n, l) => (Exited n, l)
    end.
Proof.
  unfold resolveInExecroot, resolution, buildResolve.
  destruct (fastPath env importPath otherOptions) as [[[r|]| |] l]; simpl; try done.
  - destruct (sandboxResult env r) as [out l']. simpl. by rewrite app_nil_r.
  - destruct (resolve env importPath otherOptions) as [e|r]; simpl; [done|].
    destruct (sandboxResult env r) as [out l']. simpl. by rewrite <- app_assoc.
Qed.

(** The log of the escape check: empty, or the one debug message of a
    correction. *)
Lemma sandboxResult_log result :
  snd (sandboxResult env result) = [] ∨
  (logDebug env = true ∧
   hasErrors result = false ∧ pathLike (path result) = true ∧
   startsWith (path result) (execroot env) = false ∧
   includes (path result) (bindir env) = true ∧
   snd (sandboxResult env result) =
     [ConsoleError
        (debugMessage (path result)
           (NodePath.join (execroot env)
              (substring (path result) (indexOf (path result) (bindir env)))))]).
Proof.
  unfold sandboxResult.
  destruct (hasErrors result); [by left|].
  destruct (pathLike (path result)); [|by left]. simpl.
  destruct (startsWith (path result) (execroot env)); [by left|]. simpl.
  destruct (includes (path result) (bindir env)); [|by left]. simpl.
  destruct (logDebug env); [by right|by left].
Qed.

(** X2. A specifier that does not begin with "." never touches the file
    system: the request goes to [build.resolve], once and as it stands. *)
Theorem non_relative_specifier_goes_straight_to_the_resolver
    importPath otherOptions :
  startsWith importPath "." = false →
  fsCalls (snd (resolveInExecroot env importPath otherOptions)) = [] ∧
  resolverCalls (snd (resolveInExecroot env importPath otherOptions))
    = [BuildResolve importPath otherOptions].
Proof.
  intros Hrel. rewrite resolveInExecroot_unfold.
  unfold fastPath. rewrite Hrel. simpl.
  destruct (resolve env importPath otherOptions) as [e|r]; simpl; [done|].
  pose proof (sandboxResult_no_fs r) as Hfs.
  pose proof (sandboxResult_no_resolve env r) as Hrs.
  unfold fsCalls, resolverCalls in *. by rewrite Hfs, Hrs.
Qed.

(** A run of [resolveInExecroot] is the resolution, which writes nothing
    to the console and sends the resolver the request as it stands, followed
    by the escape check, unless the resolution throws. *)
Lemma resolveInExecroot_decompose importPath otherOptions :
  ∃ pre,
    consoleCalls pre = [] ∧
    (resolverCalls pre = [] ∨
     resolverCalls pre = [BuildResolve importPath otherOptions]) ∧
    ((∃ r, resolution env importPath otherOptions = (Returned r, pre) ∧
           resolveInExecroot env importPath otherOptions
             = (fst (sandboxResult env r), pre ++ snd (sandboxResult env r))) ∨
     (∃ e, resolveInExecroot env importPath otherOptions = (Thrown e, pre))).
Proof.
  rewrite resolveInExecroot_unfold. unfold resolution, buildResolve.
  destruct (fastPath_shapes importPath otherOptions)
    as [[_ ->] | (_ & out & log & -> & Hlog & Hout)].
  - simpl. destruct (resolve env importPath otherOptions) as [e|r]; simpl.
    + exists [BuildResolve importPath otherOptions].
      split; [done|]. split; [by right|]. right. by eexists.
    + exists [BuildResolve importPath otherOptions].
      split; [done|]. split; [by right|]. left. exists r. by split.
  - assert (Hquiet : consoleCalls log = [] ∧ resolverCalls log = []).
    { by destruct Hlog as [-> | ->]. }
    destruct Hquiet as [Hc Hr].
    destruct out as [[r|]| |]; simpl.
    + exists log. split; [done|]. split; [by left|]. left. exists r.
      by rewrite app_nil_r.
    + destruct (resolve env importPath otherOptions) as [e|r]; simpl.
      * exists (log ++ [BuildResolve importPath otherOptions]).
        unfold consoleCalls, resolverCalls in *. rewrite !List.filter_app, Hc, Hr.
        split; [done|]. split; [by right|]. right. by eexists.
      * exists (log ++ [BuildResolve importPath otherOptions]).
        unfold consoleCalls, resolverCalls in *. rewrite !List.filter_app, Hc, Hr.
        split; [done|]. split; [by right|]. left. exists r.
        split; [done|]. by rewrite <- app_assoc.
    + exists log. split; [done|]. split; [by left|]. right. by eexists.
    + by destruct (Hout status).
Qed.

Lemma elem_of_filter_list {A} (f : A → bool) (l : list A) (x : A) :
  x ∈ l → f x = true → x ∈ List.filter f l.
Proof.
  intros Hin Hf. apply list_elem_of_In, List.filter_In.
  split; [by apply list_elem_of_In|done].
Qed.

(** The requests sent to the resolver are the callback's own. *)
Lemma resolveInExecroot_requests importPath otherOptions importPath' request :
  BuildResolve importPath' request ∈ snd (resolveInExecroot env importPath otherOptions) →
  importPath' = importPath ∧ request = otherOptions.
Proof.
  intros Hin.
  apply (elem_of_filter_list isBuildResolve) in Hin; [|done].
  fold (resolverCalls (snd (resolveInExecroot env importPath otherOptions))) in Hin.
  destruct (resolveInExecroot_decompose importPath otherOptions)
    as (pre & _ & Hpre & [(r & _ & Hrun) | (e & Hrun)]);
    rewrite Hrun in Hin; simpl in Hin.
  - pose proof (sandboxResult_no_resolve env r) as Hn.
    unfold resolverCalls in *. rewrite List.filter_app, Hn, app_nil_r in Hin.
    destruct Hpre as [Hp | Hp]; rewrite Hp in Hin.
    + by apply elem_of_nil in Hin.
    + by apply list_elem_of_singleton in Hin as [= -> ->].
  - destruct Hpre as [Hp | Hp]; rewrite Hp in Hin.
    + by apply elem_of_nil in Hin.
    + by apply list_elem_of_singleton in Hin as [= -> ->].
Qed.

(** X3. When the forwarding data of a request is falsy or an ordinary
    object, one on which the write of the marker takes effect ([PDObject];
    not a frozen, sealed or otherwise closed one, which is [PDLocked]),
    every request the callback sends to [build.resolve] is for the same
    specifier, from the same directory, and carries the marker: called
    again with it, the callback returns [undefined] at once and does
    nothing. *)
Theorem resolver_requests_carry_the_marker
    importPath otherOptions importPath' request :
  pdTruthy (pluginData otherOptions) = false
    ∨ (∃ props, pluginData otherOptions = PDObject props) →
  BuildResolve importPath' request ∈ snd (onResolve env importPath otherOptions) →
  importPath' = importPath ∧
  resolveDir request = resolveDir otherOptions ∧
  importer request = importer otherOptions ∧
  namespace request = namespace otherOptions ∧
  kind request = kind otherOptions ∧
  marked (pluginData request) = true ∧
  onResolve env importPath' request = (Returned None, []).
Proof.
  intros Hdata. unfold onResolve at 1.
  destruct (guard otherOptions) as [sent|] eqn:Hguard; [|by intros ?%elem_of_nil].
  rewrite snd_bind.
  intros Hin. assert (Hin' : BuildResolve importPath' request
                               ∈ snd (resolveInExecroot env importPath sent)).
  { apply elem_of_app in Hin as [?|Hin]; [done|].
    destruct (fst (resolveInExecroot env importPath sent)); by apply elem_of_nil in Hin. }
  apply resolveInExecroot_requests in Hin' as [-> ->].
  assert (Hsent : marked (pluginData sent) = true ∧
                  resolveDir sent = resolveDir otherOptions ∧
                  importer sent = importer otherOptions ∧
                  namespace sent = namespace otherOptions ∧
                  kind sent = kind otherOptions).
  { unfold guard in Hguard. destruct Hdata as [Hf | [props Hp]].
    - rewrite Hf in Hguard. injection Hguard as <-.
      unfold marked. simpl. by rewrite lookup_insert_eq.
    - rewrite Hp in Hguard. simpl in Hguard.
      destruct (truthy _); [done|]. injection Hguard as <-.
      unfold marked. simpl. by rewrite lookup_insert_eq. }
  destruct Hsent as (Hm & ? & ? & ? & ?).
  repeat split; try done. by apply onResolve_marked.
Qed.

(** X4. What the plug-in returns is the resolution result with at most its
    path changed, and the path is changed only by the correction: a result
    with errors, with a path that does not start with ".", "/" or a
    backslash, or with a path that starts with the execroot is returned as
    it is. *)
Theorem plugin_changes_only_the_path importPath otherOptions returned :
  fst (resolveInExecroot env importPath otherOptions) = Returned returned →
  ∃ result,
    fst (resolution env importPath otherOptions) = Returned result ∧
    errors returned = errors result ∧
    others returned = others result ∧
    (hasErrors result = true ∨ pathLike (path result) = false
       ∨ startsWith (path result) (execroot env) = true →
     returned = result) ∧
    (returned ≠ result →
     includes (path result) (bindir env) = true ∧
     path returned =
       NodePath.join (execroot env)
         (substring (path result) (indexOf (path result) (bindir env)))).
Proof.
  unfold resolveInExecroot. rewrite fst_bind.
  destruct (fst (resolution env importPath otherOptions)) as [result| |]; [|done..].
  intros Hret. exists result. split; [done|].
  unfold sandboxResult in Hret.
  destruct (hasErrors result); [injection Hret as <-; by repeat split|].
  destruct (pathLike (path result)); simpl in Hret;
    [|injection Hret as <-; by repeat split].
  destruct (startsWith (path result) (execroot env)); simpl in Hret;
    [injection Hret as <-; by repeat split|].
  destruct (includes (path result) (bindir env)); simpl in Hret; [|done].
  destruct (logDebug env); simpl in Hret; injection Hret as <-;
    (split; [done|]); (split; [done|]); (split; [by intros [?|[?|?]]|done]).
Qed.

(** X5. The plug-in writes to the console only when JS_BINARY__LOG_DEBUG is
    set and it corrects a path, and then it writes the one message naming
    the path as resolved and the path as corrected. *)
Theorem console_is_written_only_on_a_debugged_correction
    importPath otherOptions text :
  ConsoleError text ∈ snd (resolveInExecroot env importPath otherOptions) →
  logDebug env = true ∧
  ∃ result corrected,
    fst (resolution env importPath otherOptions) = Returned result ∧
    fst (resolveInExecroot env importPath otherOptions)
      = Returned (withPath result corrected) ∧
    text = debugMessage (path result) corrected ∧
    consoleCalls (snd (resolveInExecroot env importPath otherOptions))
      = [ConsoleError text].
Proof.
  intros Hin.
  apply (elem_of_filter_list isConsole) in Hin; [|done].
  fold (consoleCalls (snd (resolveInExecroot env importPath otherOptions))) in Hin.
  destruct (resolveInExecroot_decompose importPath otherOptions)
    as (pre & Hquiet & _ & [(r & Hres & Hrun) | (e & Hrun)]);
    rewrite Hrun in Hin |- *; simpl in Hin |- *; unfold consoleCalls in *.
  - rewrite List.filter_app, Hquiet in Hin |- *. simpl in Hin |- *.
    destruct (sandboxResult_log r) as [Hnil | (Hd & He & Hl & Hs & Hi & Hlog)].
    + rewrite Hnil in Hin. by apply elem_of_nil in Hin.
    + rewrite Hlog in Hin |- *. simpl in Hin |- *.
      apply list_elem_of_singleton in Hin as [= ->].
      split; [done|]. eexists r, _. rewrite Hres.
      split; [done|]. split; [|done].
      by rewrite sandboxResult_corrected.
  - rewrite Hquiet in Hin. by apply elem_of_nil in Hin.
Qed.

End SandboxEffects.

Section PathFacts.
Import JsString NodePath PathShape.

Lemma split_not_nil c s : split c s ≠ [].
Proof.
  destruct s as [|a s]; simpl; [done|].
  destruct (Ascii.eqb a c); [done|]. by destruct (split c s).
Qed.

Lemma split_app_sep c a b :
  split c (a +:+ String c b) = split c a ++ split c b.
Proof.
  induction a as [|x a IH].
  - rewrite app_nil_str. simpl. by rewrite Ascii.eqb_refl.
  - rewrite app_cons_str. simpl. rewrite IH.
    destruct (Ascii.eqb x c); [done|].
    pose proof (split_not_nil c a). by destruct (split c a).
Qed.

Lemma split_without_sep c s : Driver.hasChar c s = false → split c s = [s].
Proof.
  induction s as [|a s IH]; simpl; [done|].
  intros [Hac Hs]%orb_false_iff. rewrite Hac, (IH Hs). done.
Qed.

Lemma joinWith_cons sep seg seg' rest :
  joinWith sep (seg :: seg' :: rest) = seg +:+ sep +:+ joinWith sep (seg' :: rest).
Proof. reflexivity. Qed.

Lemma split_joinWith segs :
  segs ≠ [] →
  forallb cleanSegment segs = true →
  split slash (joinWith "/" segs) = segs.
Proof.
  induction segs as [|seg [|seg' rest] IH]; [done| |]; intros _ Hclean.
  - simpl in Hclean. rewrite andb_true_r in Hclean.
    apply andb_true_iff in Hclean as [_ Hs%negb_true_iff].
    by apply split_without_sep.
  - rewrite joinWith_cons.
    change ("/" +:+ joinWith "/" (seg' :: rest))
      with (String slash (joinWith "/" (seg' :: rest))).
    rewrite split_app_sep.
    change (forallb cleanSegment (seg :: seg' :: rest))
      with (cleanSegment seg && forallb cleanSegment (seg' :: rest)) in Hclean.
    apply andb_true_iff in Hclean as [Hseg Hrest].
    rewrite IH by done.
    apply andb_true_iff in Hseg as [_ Hs%negb_true_iff].
    by rewrite split_without_sep.
Qed.

Lemma normalizeStep_clean allow res seg :
  cleanSegment seg = true → normalizeStep allow res seg = seg :: res.
Proof.
  unfold cleanSegment, normalizeStep.
  intros [[[H1%negb_true_iff H2%negb_true_iff]%andb_true_iff
             H3%negb_true_iff]%andb_true_iff _]%andb_true_iff.
  by rewrite H1, H2, H3.
Qed.

Lemma fold_clean allow segs res :
  forallb cleanSegment segs = true →
  fold_left (normalizeStep allow) segs res = rev segs ++ res.
Proof.
  revert res. induction segs as [|seg segs IH]; intros res; [done|].
  simpl. intros [Hseg Hrest]%andb_true_iff.
  rewrite normalizeStep_clean, IH by done. by rewrite <- app_assoc.
Qed.

(** Without "..", normalising only adds segments on top of the stack. *)
Lemma fold_without_parent allow segs res :
  forallb (λ seg, negb (String.eqb seg "..")) segs = true →
  ∃ extra, fold_left (normalizeStep allow) segs res = extra ++ res.
Proof.
  revert res. induction segs as [|seg segs IH]; intros res; [by exists []|].
  simpl. intros [Hseg%negb_true_iff Hrest]%andb_true_iff.
  unfold normalizeStep at 2. rewrite Hseg.
  destruct (_ || _).
  - by apply IH.
  - destruct (IH (seg :: res) Hrest) as [extra ->].
    exists (extra ++ [seg]). by rewrite <- app_assoc.
Qed.

Lemma joinWith_app_starts segs extra :
  ∃ rest, joinWith "/" (segs ++ extra) = joinWith "/" segs +:+ rest.
Proof.
  induction segs as [|seg [|seg' segs] IH].
  - by exists (joinWith "/" extra).
  - destruct extra as [|e extra].
    + exists EmptyString. simpl. by rewrite app_nil_r_str.
    + exists ("/" +:+ joinWith "/" (e :: extra)). reflexivity.
  - destruct IH as [rest IH]. exists rest.
    change ((seg :: seg' :: segs) ++ extra) with (seg :: seg' :: (segs ++ extra)).
    rewrite !joinWith_cons.
    change (seg' :: segs ++ extra) with ((seg' :: segs) ++ extra).
    rewrite IH. by rewrite !app_assoc_str.
Qed.

Lemma joinWith_clean_not_empty seg segs :
  cleanSegment seg = true → joinWith "/" (seg :: segs) ≠ EmptyString.
Proof.
  unfold cleanSegment. intros [[[H1%negb_true_iff _]%andb_true_iff _]%andb_true_iff _]%andb_true_iff.
  apply String.eqb_neq in H1.
  destruct seg as [|a seg]; [done|]. by destruct segs.
Qed.

Lemma normalize_absolute q :
  q ≠ EmptyString → startsWith q "/" = true →
  normalize q =
    if String.eqb (normalizeString q false) ""
    then "/"
    else "/" +:+ normalizeString q false +:+
         (if endsWithChar q slash then "/" else "").
Proof.
  intros Hq%String.eqb_neq Habs. unfold normalize. by rewrite Hq, Habs.
Qed.

(** Joining a path without ".." onto a normal absolute path stays under
    that path. *)
Lemma join_stays_under segs suffix :
  forallb cleanSegment segs = true →
  noParentSegment suffix = true →
  startsWith (join (absolutePath segs) suffix) (absolutePath segs) = true ∧
  startsWith (join (absolutePath segs) suffix) "/" = true.
Proof.
  intros Hclean Hsuffix.
  assert (Hroot : split slash (absolutePath segs) = EmptyString :: nil ++
                    (if decide (segs = []) then [EmptyString] else segs)).
  { unfold absolutePath.
    change ("/" +:+ joinWith "/" segs) with (String slash (joinWith "/" segs)).
    simpl. f_equal.
    destruct (decide (segs = [])) as [->|Hne]; [done|]. by apply split_joinWith. }
  assert (Hfold : fold_left (normalizeStep false) (split slash (absolutePath segs)) []
                  = rev segs).
  { rewrite Hroot. simpl. destruct (decide (segs = [])) as [->|Hne]; [done|].
    by rewrite fold_clean, app_nil_r. }
  assert (Hnorm : ∀ q extra trailing,
    q ≠ EmptyString → startsWith q "/" = true →
    fold_left (normalizeStep false) (split slash q) [] = extra ++ rev segs →
    endsWithChar q slash = trailing →
    startsWith (normalize q) (absolutePath segs) = true ∧
    startsWith (normalize q) "/" = true).
  { intros q extra trailing Hq Habs Hq_fold _.
    rewrite (normalize_absolute q Hq Habs).
    unfold normalizeString. rewrite Hq_fold, rev_app_distr, rev_involutive.
    destruct (joinWith_app_starts segs (rev extra)) as [rest Hjoin].
    rewrite Hjoin.
    destruct (String.eqb_spec (joinWith "/" segs +:+ rest) "") as [Hempty|_].
    - split; [|done]. destruct segs as [|seg segs]; [done|].
      exfalso. simpl in Hclean. apply andb_true_iff in Hclean as [Hseg _].
      apply (joinWith_clean_not_empty seg segs Hseg).
      by destruct (joinWith "/" (seg :: segs)).
    - split; [|done].
      replace ("/" +:+ (joinWith "/" segs +:+ rest) +:+
               (if endsWithChar q slash then "/" else ""))
        with (absolutePath segs +:+
              (rest +:+ (if endsWithChar q slash then "/" else ""))).
      + apply startsWith_app.
      + unfold absolutePath. by rewrite !app_assoc_str. }
  assert (Hne : absolutePath segs ≠ EmptyString) by done.
  unfold join.
  destruct (String.eqb_spec (absolutePath segs) ""); [done|].
  destruct (String.eqb_spec suffix "").
  - apply (Hnorm _ [] (endsWithChar (absolutePath segs) slash)); [done|done| |done].
    by rewrite Hfold.
  - set (q := absolutePath segs +:+ "/" +:+ suffix).
    assert (Hsplit : split slash q = split slash (absolutePath segs) ++ split slash suffix).
    { unfold q. change ("/" +:+ suffix) with (String slash suffix).
      apply split_app_sep. }
    destruct (fold_without_parent false (split slash suffix) (rev segs) Hsuffix)
      as [extra Hextra].
    apply (Hnorm q extra (endsWithChar q slash)); [done|done| |done].
    by rewrite Hsplit, fold_left_app, Hfold.
Qed.

End PathFacts.

Section SandboxInvariant.
Import Effect Js JsString Sandbox PathShape.
Variable env : Env.

(** X6. When the execroot is a normal absolute path (segments without
    slash, none empty, "." or "..") and the part of the resolved path from
    the bindir on has no ".." segment, the corrected path starts with the
    execroot, so the plug-in's own check accepts it: run on its output
    again, the check changes nothing. *)
Theorem corrected_path_lies_under_the_execroot result segs :
  execroot env = absolutePath segs →
  forallb cleanSegment segs = true →
  hasErrors result = false →
  pathLike (path result) = true →
  startsWith (path result) (execroot env) = false →
  includes (path result) (bindir env) = true →
  noParentSegment
    (substring (path result) (indexOf (path result) (bindir env))) = true →
  ∃ corrected,
    fst (sandboxResult env result) = Returned (withPath result corrected) ∧
    startsWith corrected (execroot env) = true ∧
    sandboxResult env (withPath result corrected)
      = (Returned (withPath result corrected), []).
Proof.
  intros Hroot Hclean Herr Hlike Hout Hin Hsuffix.
  eexists. split; [by apply sandboxResult_corrected|].
  rewrite Hroot in *.
  destruct (join_stays_under segs _ Hclean Hsuffix) as [Hunder Habs].
  split; [done|].
  apply sandboxResult_inside; simpl; [done| |by rewrite Hroot].
  unfold pathLike. by rewrite Habs, orb_true_r.
Qed.

End SandboxInvariant.

(** * Further properties of the argument assembly *)

Section AssemblyMore.
Import Effect Js Launcher.
Variable env : Env.
Variables (args : gmap string value) (userArgsFilePath : option string).
Variable configFilePath : string.
Variables existing exports config : gmap string value.

Hypothesis Hinline : fst (inlineArgs env args userArgsFilePath) = Returned existing.
Hypothesis Hnamed : configFilePath ≠ "".
Hypothesis Hloads :
  importModule env (NodePath.join (cwd env) configFilePath) = Some exports.
Hypothesis Hdefault : exports !! "default" = Some (VObject config).

Local Abbreviation assembled :=
  (assembleArgs env args userArgsFilePath (Some configFilePath)).
Local Abbreviation atKey :=
  (merged_at env args userArgsFilePath configFilePath existing exports config
     Hinline Hnamed Hloads Hdefault).
Local Abbreviation asFold :=
  (assembleArgs_fold env args userArgsFilePath configFilePath existing exports
     config Hinline Hnamed Hloads Hdefault).

(** X7. In a run that assembles a build specification (the configuration
    has no property named [__proto__], and its "define" entry, if any, is
    merged without an exception), a key the configuration module sets to
    [null] or [undefined] is skipped: the assembled specification keeps what
    the existing arguments had at that key, and no warning names it. *)
Theorem null_config_value_is_skipped key value :
  config !! "__proto__" = None →
  config !! key = Some value →
  nullish value = true →
  foldReturns config existing = true →
  ∃ merged log,
    assembled = (Returned merged, log) ∧
    merged !! key = existing !! key ∧
    warningsNaming key log = [].
Proof.
  intros _ Hkey Hnull Hsafe.
  destruct (atKey key value Hsafe Hkey)
    as (merged & log & prev1 & prev2 & log2 & Hrun & Hstep & Hnone & Hat & Hw).
  exists merged, log. split; [done|].
  rewrite mergeEntry_unfold, Hnull in Hstep. injection Hstep as <- <-.
  split; [|done]. by rewrite Hat, lookup_union, Hnone, (left_id None _).
Qed.

(** X8. Where the configuration has no property named [__proto__] and the
    existing arguments have none named [hasOwnProperty]: when the
    configuration module gives "define" a value that is neither a sequence
    nor a mapping (a string, a number, a function) and the existing
    arguments have a "define", the existing one is kept and exactly one
    warning, "could not be merged", names the key. *)
Theorem unmergeable_define_is_kept_and_warned value kept :
  config !! "__proto__" = None →
  existing !! "hasOwnProperty" = None →
  config !! "define" = Some value →
  nullish value = false →
  (∀ elems, value ≠ VArray elems) →
  (∀ props, value ≠ VObject props) →
  existing !! "define" = Some kept →
  ∃ merged log,
    assembled = (Returned merged, log) ∧
    merged !! "define" = Some kept ∧
    warningsNaming "define" log = [UnmergeableWarning "define" configFilePath].
Proof.
  intros _ Hown Hkey Hnull Harr Hobj Hex.
  assert (Hsafe : foldReturns config existing = true).
  { unfold foldReturns, shadowedHasOwnProperty, defineSpreads.
    rewrite Hkey, Hown. destruct value; try done. by destruct (Harr elems). }
  destruct (atKey "define" value Hsafe Hkey)
    as (merged & log & prev1 & prev2 & log2 & Hrun & Hstep & Hnone & Hat & Hw).
  exists merged, log. split; [done|].
  rewrite mergeEntry_unfold, Hnull, Hown, Hex in Hstep. simpl in Hstep.
  destruct value; try done; try (by destruct (Harr elems)); try (by destruct (Hobj props));
    injection Hstep as <- <-;
    (split; [by rewrite Hat, lookup_union, Hnone, Hex|by rewrite Hw]).
Qed.

(** X9. Where the configuration has no property named [__proto__] and the
    existing arguments have none named [hasOwnProperty]: when the existing
    arguments have no "define", the configuration module's "define" is
    taken as it is, whatever its shape, without a warning. *)
Theorem define_without_existing_is_taken value :
  config !! "__proto__" = None →
  existing !! "hasOwnProperty" = None →
  config !! "define" = Some value →
  nullish value = false →
  existing !! "define" = None →
  ∃ merged log,
    assembled = (Returned merged, log) ∧
    merged !! "define" = Some value ∧
    warningsNaming "define" log = [].
Proof.
  intros _ Hown Hkey Hnull Hex.
  assert (Hsafe : foldReturns config existing = true).
  { unfold foldReturns, shadowedHasOwnProperty, defineSpreads.
    rewrite Hkey, Hown, Hex. by destruct value. }
  destruct (atKey "define" value Hsafe Hkey)
    as (merged & log & prev1 & prev2 & log2 & Hrun & Hstep & Hnone & Hat & Hw).
  exists merged, log. split; [done|].
  rewrite mergeEntry_unfold, Hnull, Hown, Hex in Hstep. simpl in Hstep.
  injection Hstep as <- <-.
  split; [|by rewrite Hw]. by rewrite Hat, lookup_union, assign_eq, Hex.
Qed.

(** X10. A key the configuration module does not have is left as the
    existing arguments have it (present or absent), and no warning names
    it. *)
Theorem keys_outside_the_config_are_untouched key merged log :
  config !! key = None →
  assembled = (Returned merged, log) →
  merged !! key = existing !! key ∧ warningsNaming key log = [].
Proof.
  intros Hkey. rewrite asFold.
  destruct (foldM (mergeEntry configFilePath existing) (map_to_list config) ∅)
    as [[prev| |] l] eqn:Hfold; [|done..].
  simpl. rewrite app_nil_r. intros [= <- <-].
  destruct (foldM_frame configFilePath existing (map_to_list config) ∅ prev l key)
    as [Hprev Hw]; [|done|].
  - intros v Hin%elem_of_map_to_list. congruence.
  - split; [|done]. unfold spread. by rewrite lookup_union, Hprev, lookup_empty, (left_id None _).
Qed.

(** X11. Once the configuration module is loaded, and where it has no
    property named [__proto__], the fold over its entries has three
    outcomes, told apart by the "define" entry alone.  It throws a
    TypeError at the [hasOwnProperty] call when the module gives "define" a
    value other than [null] and [undefined] while the existing arguments
    have a property named [hasOwnProperty]; failing that, it throws a
    TypeError at the spread when the module gives a sequence for "define"
    while the existing "define" cannot be iterated (it is neither a
    sequence nor a string); in every other case a build specification is
    produced. *)
Theorem assembly_returns_exactly_when_define_merges :
  config !! "__proto__" = None →
  (shadowedHasOwnProperty config existing = true →
   fst assembled =
     Thrown (TypeError "existingArgs.hasOwnProperty is not a function")) ∧
  (shadowedHasOwnProperty config existing = false →
   defineSpreads config existing = false →
   fst assembled = Thrown (TypeError "existingArgs[key] is not iterable")) ∧
  (shadowedHasOwnProperty config existing = false →
   defineSpreads config existing = true →
   ∃ merged, fst assembled = Returned merged).
Proof.
  intros _. split; [|split].
  - by apply (shadowed_hasOwnProperty_throws env args userArgsFilePath
                configFilePath existing exports config).
  - by apply (define_not_spreadable_throws env args userArgsFilePath
                configFilePath existing exports config).
  - intros Hown Hspread.
    assert (Hsafe : foldReturns config existing = true).
    { unfold foldReturns. by rewrite Hown, Hspread. }
    destruct (foldM_returns configFilePath existing (map_to_list config) ∅
                (entries_return configFilePath existing config Hsafe))
      as (prev & log & Hfold).
    rewrite asFold, Hfold. by eexists.
Qed.

End AssemblyMore.

Section AssemblyErrors.
Import Effect Js Launcher.
Variable env : Env.
Variable args : gmap string value.

(** X12. When a user parameter file is named: if it parses, its keys are
    laid over the inline arguments (a key of the file wins, the other
    inline keys stay); if it cannot be read or parsed, the process ends with
    status 1 after one diagnostic, whatever the configuration flag. *)
Theorem user_args_override_or_end_the_process flag paramsFilePath :
  flagSet flag = Some paramsFilePath →
  (∀ userArgs, readParams env paramsFilePath = Some userArgs →
     ∃ merged,
       inlineArgs env args flag = (Returned merged, []) ∧
       ∀ key, merged !! key = match userArgs !! key with
                              | Some v => Some v
                              | None => args !! key
                              end) ∧
  (readParams env paramsFilePath = None →
   ∀ configFlag,
     assembleArgs env args flag configFlag
       = (Exited 1, [ParamsFileError paramsFilePath])).
Proof.
  intros Hflag. split.
  - intros userArgs Hread. exists (spread args userArgs).
    unfold inlineArgs, getEsbuildArgs. rewrite Hflag, Hread. split; [done|].
    intros key. unfold spread. rewrite lookup_union.
    by destruct (userArgs !! key), (args !! key).
  - intros Hread configFlag.
    unfold assembleArgs, inlineArgs, getEsbuildArgs. by rewrite Hflag, Hread.
Qed.

(** X13. When a configuration file is named and the inline arguments are
    in hand: a module that fails to load ends the process with status 1
    after the load diagnostic; a module without a default export, or with a
    falsy one, ends it with status 1 after the "did not export" diagnostic.
    Nothing is merged in either case. *)
Theorem unusable_configuration_ends_the_process
    userArgsFilePath configFilePath existing :
  fst (inlineArgs env args userArgsFilePath) = Returned existing →
  configFilePath ≠ "" →
  (importModule env (NodePath.join (cwd env) configFilePath) = None →
   assembleArgs env args userArgsFilePath (Some configFilePath)
     = (Exited 1, [ConfigLoadError configFilePath])) ∧
  (∀ exports,
     importModule env (NodePath.join (cwd env) configFilePath) = Some exports →
     truthy (default VUndefined (exports !! "default")) = false →
     assembleArgs env args userArgsFilePath (Some configFilePath)
       = (Exited 1, [NoDefaultExport configFilePath])).
Proof.
  intros Hinline Hnamed.
  pose proof (inlineArgs_silent env args userArgsFilePath existing Hinline) as Hin.
  assert (Hflag : flagSet (Some configFilePath) = Some configFilePath).
  { simpl. by destruct (String.eqb_spec configFilePath ""). }
  split.
  - intros Hload. unfold assembleArgs, processConfigFile.
    by rewrite Hin, Hflag, Hload.
  - intros exports Hload Hfalsy. unfold assembleArgs. rewrite Hin, Hflag.
    unfold processConfigFile. rewrite Hload.
    destruct (exports !! "default") as [v|]; simpl in Hfalsy |- *; [|done].
    by rewrite Hfalsy.
Qed.

End AssemblyErrors.

Section AssemblyLog.
Import Effect Js Launcher.
Variable configFilePath : string.
Variable existing : gmap string value.

Local Abbreviation step := (mergeEntry configFilePath existing).

Lemma mergeEntry_log prev key value c :
  c ∈ snd (step prev (key, value)) →
  nullish value = false ∧
  ((c = IgnoredWarning key configFilePath ∧ key ∈ IGNORED_CONFIG_KEYS) ∨
   (c = UnmergeableWarning key configFilePath ∧ key ∈ MERGE_CONFIG_KEYS ∧
    is_Some (existing !! key))).
Proof.
  rewrite mergeEntry_unfold.
  destruct (nullish value); [by intros ?%elem_of_nil|].
  destruct (bool_decide_reflect (key ∈ IGNORED_CONFIG_KEYS)) as [Hign|_].
  { simpl. intros ->%list_elem_of_singleton. split; [done|]. by left. }
  destruct (bool_decide_reflect (key ∈ MERGE_CONFIG_KEYS)) as [Hm|_];
    [|by intros ?%elem_of_nil].
  destruct (existing !! "hasOwnProperty"); [by intros ?%elem_of_nil|].
  destruct (existing !! key) as [ex|] eqn:Hex; [|by intros ?%elem_of_nil].
  destruct value; simpl; try (by intros ?%elem_of_nil);
    try (intros ->%list_elem_of_singleton; split; [done|]; right; by eauto).
  destruct (iterate ex); by intros ?%elem_of_nil.
Qed.

Lemma foldM_log l acc c :
  c ∈ snd (foldM step l acc) →
  ∃ entry prev, entry ∈ l ∧ c ∈ snd (step prev entry).
Proof.
  revert acc. induction l as [|entry l IH]; intros acc; [by intros ?%elem_of_nil|].
  simpl. rewrite snd_bind. intros [Hin|Hin]%elem_of_app.
  - exists entry, acc. split; [by left|done].
  - destruct (fst (step acc entry)) as [acc'| |]; [|by apply elem_of_nil in Hin..].
    destruct (IH acc' Hin) as (e & p & He & Hc). exists e, p. split; [by right|done].
Qed.

End AssemblyLog.

Section AssemblyWarnings.
Import Effect Js Launcher.
Variable env : Env.
Variables (args : gmap string value) (userArgsFilePath : option string).
Variable configFilePath : string.
Variables existing exports config : gmap string value.

Hypothesis Hinline : fst (inlineArgs env args userArgsFilePath) = Returned existing.
Hypothesis Hnamed : configFilePath ≠ "".
Hypothesis Hloads :
  importModule env (NodePath.join (cwd env) configFilePath) = Some exports.
Hypothesis Hdefault : exports !! "default" = Some (VObject config).

(** X14. Everything the assembly writes while it folds the configuration
    module is a warning about a key the module sets to a value other than
    [null] and [undefined]: "will be ignored" for an ignored key, or "could
    not be merged" for "define" when the existing arguments have one.  This
    holds for the log of a run that throws as well. *)
Theorem assembly_only_warns_about_configured_keys c :
  c ∈ snd (assembleArgs env args userArgsFilePath (Some configFilePath)) →
  ∃ key value,
    config !! key = Some value ∧
    nullish value = false ∧
    ((c = IgnoredWarning key configFilePath ∧ key ∈ IGNORED_CONFIG_KEYS) ∨
     (c = UnmergeableWarning key configFilePath ∧ key = "define" ∧
      is_Some (existing !! "define"))).
Proof.
  rewrite (assembleArgs_fold env args userArgsFilePath configFilePath existing
             exports config Hinline Hnamed Hloads Hdefault).
  rewrite snd_bind. intros [Hin|Hin]%elem_of_app.
  - destruct (foldM_log _ _ _ _ _ Hin) as ([key value] & prev & Hentry & Hc).
    apply elem_of_map_to_list in Hentry.
    destruct (mergeEntry_log _ _ _ _ _ _ Hc) as [Hnull [[-> Hign] | (-> & Hm & Hex)]].
    + exists key, value. split; [done|]. split; [done|]. by left.
    + apply list_elem_of_singleton in Hm as ->.
      exists "define", value. split; [done|]. split; [done|]. by right.
  - destruct (fst (foldM _ _ _)); by apply elem_of_nil in Hin.
Qed.

End AssemblyWarnings.

(** * Properties of the driver *)

Section PatternFacts.
Import JsString Driver.

Lemma drop_app pre r : drop (String.length pre) (pre +:+ r) = r.
Proof. induction pre as [|a pre IH]; [done|]. rewrite app_cons_str. simpl. exact IH. Qed.

Lemma stripPrefix_spec pre s r : stripPrefix pre s = Some r ↔ s = pre +:+ r.
Proof.
  unfold stripPrefix. split.
  - destruct (startsWith s pre) eqn:Hs; [|done]. intros [= <-].
    apply startsWith_inv in Hs as [t ->]. by rewrite drop_app.
  - intros ->. by rewrite startsWith_app, drop_app.
Qed.

Lemma skipDigits_split s :
  ∃ ds, s = ds +:+ skipDigits s ∧ allDigits ds = true.
Proof.
  induction s as [|c s (ds & Hs & Hds)]; [by exists EmptyString|].
  simpl. destruct (isDigit c) eqn:Hc.
  - exists (String c ds). rewrite app_cons_str, <- Hs. simpl. by rewrite Hc, Hds.
  - by exists EmptyString.
Qed.

Lemma skipDigits_app ds c r :
  allDigits ds = true → isDigit c = false →
  skipDigits (ds +:+ String c r) = String c r.
Proof.
  intros Hds Hc. induction ds as [|d ds IH].
  - rewrite app_nil_str. simpl. by rewrite Hc.
  - simpl in Hds. apply andb_true_iff in Hds as [Hd Hds].
    rewrite app_cons_str. simpl. rewrite Hd. by apply IH.
Qed.

(** The text the pattern matches: the summary line of the bundler. *)
Lemma buildFailedAt_spec s :
  buildFailedAt s = true ↔
  ∃ digits plural post,
    s = "Build failed with " +:+ digits +:+ " error" +:+ plural +:+ ":" +:+ post ∧
    digits ≠ EmptyString ∧ allDigits digits = true ∧
    (plural = EmptyString ∨ plural = "s").
Proof.
  unfold buildFailedAt. split.
  - destruct (stripPrefix "Build failed with " s) as [[|c r]|] eqn:Hpre; [done| |done].
    apply stripPrefix_spec in Hpre as ->.
    intros [Hc Hrest]%andb_true_iff.
    destruct (stripPrefix " error" (skipDigits (String c r))) as [t|] eqn:Herr; [|done].
    apply stripPrefix_spec in Herr.
    destruct (skipDigits_split (String c r)) as (ds & Hsplit & Hds).
    rewrite Herr in Hsplit.
    assert (Hne : ds ≠ EmptyString).
    { intros ->. rewrite app_nil_str in Hsplit. injection Hsplit as -> _. done. }
    apply orb_true_iff in Hrest as [Ht|Ht]; apply startsWith_inv in Ht as [post ->].
    + exists ds, EmptyString, post. rewrite Hsplit.
      split; [done|]. split; [done|]. split; [done|]. by left.
    + exists ds, "s", post. rewrite Hsplit.
      split; [done|]. split; [done|]. split; [done|]. by right.
  - intros (ds & plural & post & -> & Hne & Hds & Hplural).
    assert (Hstrip : stripPrefix "Build failed with "
              ("Build failed with " +:+ ds +:+ " error" +:+ plural +:+ ":" +:+ post)
            = Some (ds +:+ " error" +:+ plural +:+ ":" +:+ post))
      by (by apply stripPrefix_spec).
    rewrite Hstrip.
    destruct ds as [|c ds]; [done|]. rewrite app_cons_str.
    change (allDigits (String c ds)) with (isDigit c && allDigits ds) in Hds.
    apply andb_true_iff in Hds as [Hc Hds]. rewrite Hc. simpl.
    rewrite Hc.
    change (" error" +:+ plural +:+ ":" +:+ post)
      with (String " " ("error" +:+ plural +:+ ":" +:+ post)).
    rewrite skipDigits_app by done.
    assert (Herr : stripPrefix " error" (String " " ("error" +:+ plural +:+ ":" +:+ post))
                   = Some (plural +:+ ":" +:+ post))
      by (by apply stripPrefix_spec).
    rewrite Herr. by destruct Hplural as [-> | ->].
Qed.

Lemma buildFailedPattern_at s :
  buildFailedAt s = true → buildFailedPattern s = true.
Proof. destruct s; [done|]. simpl. by intros ->. Qed.

Lemma buildFailedPattern_spec s :
  buildFailedPattern s = true ↔
  ∃ pre digits plural post,
    s = pre +:+ "Build failed with " +:+ digits +:+ " error" +:+ plural +:+ ":" +:+ post ∧
    digits ≠ EmptyString ∧ allDigits digits = true ∧
    (plural = EmptyString ∨ plural = "s").
Proof.
  split.
  - induction s as [|c s IH]; simpl.
    + done.
    + intros [Hat|Hlater]%orb_true_iff.
      * apply buildFailedAt_spec in Hat as (ds & pl & post & ? & ?).
        by exists EmptyString, ds, pl, post.
      * destruct (IH Hlater) as (pre & ds & pl & post & -> & ?).
        by exists (String c pre), ds, pl, post.
  - intros (pre & ds & pl & post & -> & H).
    induction pre as [|c pre IH].
    + rewrite app_nil_str. apply buildFailedPattern_at.
      apply buildFailedAt_spec. by exists ds, pl, post.
    + rewrite app_cons_str. simpl. rewrite IH. apply orb_true_r.
Qed.

End PatternFacts.

Section DriverFacts.
Import Effect Js JsString Launcher Driver.
Variable proc : Process.
Variable env : Driver.Env.

Lemma find_first {A} (f : A → bool) before x after :
  (∀ a, a ∈ before → f a = false) → f x = true →
  List.find f (before ++ x :: after) = Some x.
Proof.
  intros Hbefore Hx. induction before as [|b before IH]; simpl; [by rewrite Hx|].
  rewrite (Hbefore b) by (by left). apply IH. intros a Ha. apply Hbefore. by right.
Qed.

Lemma find_none {A} (f : A → bool) l :
  (∀ a, a ∈ l → f a = false) → List.find f l = None.
Proof.
  intros Hall. induction l as [|b l IH]; simpl; [done|].
  rewrite (Hall b) by (by left). apply IH. intros a Ha. apply Hall. by right.
Qed.

(** X15. [getFlag] takes the first argument of the form flag=..., and
    returns the text after that "=" only up to the next "=": a value that
    contains "=" is cut there.  (The flag names the launcher uses contain
    no "=".) *)
Theorem getFlag_returns_the_text_up_to_the_next_equals
    flag required before value rest after :
  hasChar "="%char flag = false →
  argv proc = before ++ (flag +:+ "=" +:+ value +:+ rest) :: after →
  (∀ a, a ∈ before → startsWith a (flag +:+ "=") = false) →
  hasChar "="%char value = false →
  rest = EmptyString ∨ startsWith rest "=" = true →
  getFlag proc flag required = (Returned (Some value), []).
Proof.
  intros Hflag Hargv Hbefore Hvalue Hrest. unfold getFlag. rewrite Hargv.
  rewrite (find_first _ before _ after Hbefore).
  2:{ rewrite <- (app_assoc_str flag "=" (value +:+ rest)). apply startsWith_app. }
  change ("=" +:+ value +:+ rest) with (String "="%char (value +:+ rest)).
  rewrite split_app_sep, (split_without_sep _ flag Hflag).
  destruct Hrest as [-> | [rest' ->]%startsWith_inv].
  - by rewrite app_nil_r_str, (split_without_sep _ value Hvalue).
  - change ("=" +:+ rest') with (String "="%char rest').
    by rewrite split_app_sep, (split_without_sep _ value Hvalue).
Qed.

(** A flag that is found always has a string value. *)
Lemma getFlag_outcomes flag required :
  (∃ v, getFlag proc flag required = (Returned (Some v), [])) ∨
  ((∀ a, a ∈ argv proc → startsWith a (flag +:+ "=") = false) ∧
   getFlag proc flag required =
     if required then (Exited 1, [Console (FlagMissing flag)])
     else (Returned None, [])).
Proof.
  unfold getFlag.
  destruct (List.find _ (argv proc)) as [arg|] eqn:Hfind.
  - left. apply List.find_some in Hfind as [_ [t ->]%startsWith_inv].
    rewrite app_assoc_str.
    change ("=" +:+ t) with (String "="%char t). rewrite split_app_sep.
    pose proof (split_not_nil "="%char flag) as Hf.
    pose proof (split_not_nil "="%char t) as Ht.
    destruct (split "="%char flag) as [|f [|f' fs]]; [done| |]; simpl.
    + destruct (split "="%char t) as [|v vs]; [done|]. by exists v.
    + by exists f'.
  - right. split; [|by destruct required].
    intros a Ha%list_elem_of_In. by apply (List.find_none _ _ Hfind).
Qed.

Lemma getFlag_absent flag required :
  (∀ a, a ∈ argv proc → startsWith a (flag +:+ "=") = false) →
  getFlag proc flag required =
    if required then (Exited 1, [Console (FlagMissing flag)])
    else (Returned None, []).
Proof.
  intros Habsent. unfold getFlag. rewrite (find_none _ _ Habsent).
  by destruct required.
Qed.

Lemma builds_app l1 l2 : builds (l1 ++ l2) = builds l1 ++ builds l2.
Proof. unfold builds. apply omap_app. Qed.

Lemma builds_assembling {A} (m : M console A) : builds (snd (assembling m)) = [].
Proof. unfold assembling. simpl. induction (snd m) as [|c l IH]; [done|]. exact IH. Qed.

Lemma builds_getFlag flag required : builds (snd (getFlag proc flag required)) = [].
Proof. destruct (getFlag_outcomes flag required) as [[v ->] | [_ ->]]; [done|]. by destruct required. Qed.

Lemma builds_withPlugins args : builds (snd (withPlugins proc args)) = [].
Proof.
  unfold withPlugins. destruct (args !! "plugins") as [[]|]; simpl; try done;
    by destruct (iterate _).
Qed.

Lemma builds_bind_le {A B} (m : M Driver.event A) (k : A → M Driver.event B) n1 n2 :
  (length (builds (snd m)) ≤ n1)%nat →
  (∀ a, (length (builds (snd (k a))) ≤ n2)%nat) →
  (length (builds (snd (bind m k))) ≤ n1 + n2)%nat.
Proof.
  intros H1 H2. rewrite snd_bind, builds_app, length_app.
  destruct (fst m) as [a| |]; [specialize (H2 a)|simpl..]; lia.
Qed.

Lemma caught_exits args e :
  caught args e = (Exited 1, if hasAlreadyLogged args e then [] else [Console (BuildError e)]).
Proof. unfold caught. by destruct (hasAlreadyLogged args e). Qed.

Lemma builds_buildAndReport spec :
  builds (snd (buildAndReport proc env spec)) = [spec].
Proof.
  unfold buildAndReport. rewrite snd_bind. simpl. f_equal.
  destruct (build env spec) as [result|e].
  - destruct (truthy _); [|done].
    destruct (getFlag_outcomes "--metafile" true) as [[v ->] | [_ ->]]; simpl; [|done].
    destruct (writeFile env v _); simpl; [|done].
    rewrite caught_exits. by destruct (hasAlreadyLogged _ _).
  - rewrite caught_exits. by destruct (hasAlreadyLogged _ _).
Qed.

End DriverFacts.

Section DriverClaims.
Import Effect Js JsString Launcher Driver.
Variable proc : Process.
Variable env : Driver.Env.

(** The two ways [withPlugins] can end. *)
Lemma withPlugins_cases assembled :
  (∃ own,
     (assembled !! "plugins" = None ∨ assembled !! "plugins" = Some VUndefined
        → own = []) ∧
     (∀ given, assembled !! "plugins" = Some given → given ≠ VUndefined →
        iterate given = Some own) ∧
     withPlugins proc assembled =
       (Returned (<["plugins" :=
                      VArray ((if envSet (ESBUILD_BAZEL_SANDBOX_PLUGIN proc)
                               then [bazelSandboxPlugin] else []) ++ own)]> assembled),
        [])) ∨
  (∃ given,
     assembled !! "plugins" = Some given ∧ given ≠ VUndefined ∧
     iterate given = None ∧
     withPlugins proc assembled
       = (Thrown (TypeError "args.plugins is not iterable"), [])).
Proof.
  unfold withPlugins.
  destruct (assembled !! "plugins") as [given|] eqn:Hp.
  - destruct (iterate given) as [more|] eqn:Hit.
    + left. destruct given; try done; exists more;
        (split; [by intros [?|?]|]); (split; [by intros g [= <-] _|]); done.
    + destruct given; try done; try (right; eexists; by repeat split).
      left. exists []. split; [done|]. split; [by intros g [= <-] ?|].
      by rewrite app_nil_r.
  - left. exists []. split; [done|]. split; [done|]. by rewrite app_nil_r.
Qed.

(** X16. Every build the driver starts gets the assembled specification
    with only its "plugins" entry replaced: by a sequence that begins with
    the sandbox plug-in when ESBUILD_BAZEL_SANDBOX_PLUGIN is set and goes on
    with the plug-ins of the specification itself, in their order; and one
    call of [runOneBuild] starts one build at most. *)
Theorem build_gets_the_sandbox_plugin_first
    args userArgsFilePath configFilePath spec :
  Build spec ∈ snd (runOneBuild proc env args userArgsFilePath configFilePath) →
  ∃ assembled own,
    fst (assembleArgs (files env) args userArgsFilePath configFilePath)
      = Returned assembled ∧
    spec = <["plugins" :=
               VArray ((if envSet (ESBUILD_BAZEL_SANDBOX_PLUGIN proc)
                        then [bazelSandboxPlugin] else []) ++ own)]> assembled ∧
    (assembled !! "plugins" = None ∨ assembled !! "plugins" = Some VUndefined
       → own = []) ∧
    (∀ given, assembled !! "plugins" = Some given → given ≠ VUndefined →
       iterate given = Some own) ∧
    builds (snd (runOneBuild proc env args userArgsFilePath configFilePath)) = [spec].
Proof.
  intros Hin.
  assert (Hb : spec ∈ builds (snd (runOneBuild proc env args userArgsFilePath configFilePath))).
  { unfold builds. apply list_elem_of_omap. by exists (Build spec). }
  clear Hin. revert Hb. unfold runOneBuild.
  set (asm := assembleArgs (files env) args userArgsFilePath configFilePath).
  pose proof (builds_assembling asm) as Hasm.
  rewrite snd_bind, builds_app, Hasm.
  change (fst (assembling asm)) with (fst asm).
  destruct (fst asm) as [assembled| |]; [|by intros ?%elem_of_nil..].
  rewrite snd_bind, builds_app, builds_withPlugins.
  destruct (withPlugins_cases assembled)
    as [(own & Hnone & Hgiven & ->) | (given & _ & _ & _ & ->)];
    [|by intros ?%elem_of_nil].
  simpl. rewrite builds_buildAndReport.
  intros ->%list_elem_of_singleton.
  exists assembled, own. by repeat split.
Qed.

(** X17. A "plugins" entry that cannot be iterated ([null], a number, a
    boolean, a plain object) makes [runOneBuild] throw a TypeError before
    the bundler is called. *)
Theorem uniterable_plugins_throw_before_the_build
    args userArgsFilePath configFilePath assembled given :
  fst (assembleArgs (files env) args userArgsFilePath configFilePath)
    = Returned assembled →
  assembled !! "plugins" = Some given →
  given ≠ VUndefined →
  iterate given = None →
  fst (runOneBuild proc env args userArgsFilePath configFilePath)
    = Thrown (TypeError "args.plugins is not iterable") ∧
  builds (snd (runOneBuild proc env args userArgsFilePath configFilePath)) = [].
Proof.
  intros Hasm Hp Hdef Hit. unfold runOneBuild.
  set (asm := assembleArgs (files env) args userArgsFilePath configFilePath) in *.
  pose proof (builds_assembling asm) as Hquiet.
  rewrite fst_bind, snd_bind, builds_app, Hquiet.
  change (fst (assembling asm)) with (fst asm). rewrite Hasm.
  rewrite fst_bind, snd_bind, builds_app, builds_withPlugins.
  destruct (withPlugins_cases assembled)
    as [(own & _ & Hgiven & _) | (given' & _ & _ & _ & ->)]; [|done].
  rewrite (Hgiven given Hp Hdef) in Hit. done.
Qed.

(** X18. A build that fails always ends the process with status 1.  The
    error is written to the console unless the log level is not "silent",
    the error is an [Error], and its message contains the bundler's summary
    "Build failed with N error(s):" with N a non-empty run of digits; then
    nothing is written. *)
Theorem failed_build_exits_and_logs_once spec e :
  build env spec = Failed e →
  ∃ log,
    buildAndReport proc env spec = (Exited 1, Build spec :: log) ∧
    (log = [] ∨ log = [Console (BuildError e)]) ∧
    (log = [] ↔
     isSilent (spec !! "logLevel") = false ∧
     instanceofError e = true ∧
     ∃ pre digits plural post,
       message e = pre +:+ "Build failed with " +:+ digits +:+ " error" +:+
                   plural +:+ ":" +:+ post ∧
       digits ≠ EmptyString ∧ allDigits digits = true ∧
       (plural = EmptyString ∨ plural = "s")).
Proof.
  intros Hfail. unfold buildAndReport. rewrite Hfail, caught_exits.
  exists (if hasAlreadyLogged spec e then [] else [Console (BuildError e)]).
  split; [done|]. split; [by destruct (hasAlreadyLogged spec e); [left|right]|].
  unfold hasAlreadyLogged.
  rewrite <- buildFailedPattern_spec.
  destruct (isSilent _), (instanceofError e), (buildFailedPattern _); simpl;
    split; try done; by intros (? & ? & ?).
Qed.

(** X19. After a successful build: when the result has no metafile nothing
    is written; when it has one and no --metafile flag was passed, the
    process ends with status 1 although the build succeeded; when the flag
    gives a path, the metafile is written there, and a failure of that
    write ends the process with status 1. *)
Theorem metafile_goes_to_the_flag_path spec result :
  build env spec = Built result →
  let metafile := default VUndefined (result !! "metafile") in
  (truthy metafile = false →
   buildAndReport proc env spec = (Returned tt, [Build spec])) ∧
  (truthy metafile = true →
   (∀ a, a ∈ argv proc → startsWith a "--metafile=" = false) →
   buildAndReport proc env spec
     = (Exited 1, [Build spec; Console (FlagMissing "--metafile")])) ∧
  (truthy metafile = true →
   ∀ p, getFlag proc "--metafile" true = (Returned (Some p), []) →
     (writeFile env p metafile = None →
      buildAndReport proc env spec
        = (Returned tt, [Build spec; WriteFile p metafile])) ∧
     (∀ e, writeFile env p metafile = Some e →
      fst (buildAndReport proc env spec) = Exited 1)).
Proof.
  intros Hbuilt metafile. unfold buildAndReport. rewrite Hbuilt. fold metafile.
  split; [by intros ->|]. split.
  - intros -> Habsent.
    by rewrite (getFlag_absent proc "--metafile" true Habsent).
  - intros -> p ->. simpl. split.
    + by intros ->.
    + intros e ->. rewrite caught_exits. by destruct (hasAlreadyLogged _ _).
Qed.

(** X20. The launcher does nothing without its inputs: with
    ESBUILD_BINARY_PATH unset or empty, with no --esbuild_args flag, or with
    a parameter file that cannot be read or parsed, it writes the one
    diagnostic, ends with status 1, and never calls the bundler. *)
Theorem launcher_ends_without_its_inputs :
  (envSet (ESBUILD_BINARY_PATH proc) = false →
   main proc env = (Exited 1, [Console BinaryPathMissing])) ∧
  (envSet (ESBUILD_BINARY_PATH proc) = true →
   (∀ a, a ∈ argv proc → startsWith a "--esbuild_args=" = false) →
   main proc env = (Exited 1, [Console (FlagMissing "--esbuild_args")])) ∧
  (envSet (ESBUILD_BINARY_PATH proc) = true →
   ∀ p, getFlag proc "--esbuild_args" true = (Returned (Some p), []) →
     readParams (files env) p = None →
     main proc env = (Exited 1, [Console (Assembling (ParamsFileError p))])).
Proof.
  unfold main. split; [by intros ->|]. split.
  - intros -> Habsent.
    by rewrite (getFlag_absent proc "--esbuild_args" true Habsent).
  - intros -> p -> Hread. simpl. unfold getEsbuildArgs. by rewrite Hread.
Qed.

(** X21. However the launcher is started, it calls the bundler at most
    once. *)
Theorem launcher_builds_at_most_once :
  (length (builds (snd (main proc env))) ≤ 1)%nat.
Proof.
  assert (Hflag : ∀ flag required, (length (builds (snd (getFlag proc flag required))) ≤ 0)%nat).
  { intros flag required. by rewrite builds_getFlag. }
  assert (Hasm : ∀ A (m : M console A), (length (builds (snd (assembling m))) ≤ 0)%nat).
  { intros A m. by rewrite builds_assembling. }
  unfold main. destruct (negb _); [simpl; lia|].
  apply (builds_bind_le _ _ 0 1); [apply Hflag|]. intros paramsFilePath.
  apply (builds_bind_le _ _ 0 1); [destruct paramsFilePath; [apply Hasm|simpl; lia]|].
  intros args.
  apply (builds_bind_le _ _ 0 1); [apply Hflag|]. intros userArgsFilePath.
  apply (builds_bind_le _ _ 0 1); [apply Hflag|]. intros configFilePath.
  unfold runOneBuild.
  apply (builds_bind_le _ _ 0 1); [apply Hasm|]. intros args1.
  apply (builds_bind_le _ _ 0 1); [by rewrite builds_withPlugins|]. intros args2.
  by rewrite builds_buildAndReport.
Qed.

(** X22. The plain run: with the binary path set, the sandbox plug-in
    disabled, an --esbuild_args file that parses, no user-arguments and no
    configuration flag, and a build that succeeds without a metafile, the
    launcher calls the bundler exactly once, with the inline arguments and
    their own plug-in list (empty if they have none), writes nothing, and
    returns normally. *)
Theorem plain_run_builds_once_with_the_inline_arguments p args own result :
  envSet (ESBUILD_BINARY_PATH proc) = true →
  envSet (ESBUILD_BAZEL_SANDBOX_PLUGIN proc) = false →
  getFlag proc "--esbuild_args" true = (Returned (Some p), []) →
  (∀ a, a ∈ argv proc → startsWith a "--user_args=" = false) →
  (∀ a, a ∈ argv proc → startsWith a "--config_file=" = false) →
  readParams (files env) p = Some args →
  (args !! "plugins" = None ∧ own = []) ∨ args !! "plugins" = Some (VArray own) →
  build env (<["plugins" := VArray own]> args) = Built result →
  truthy (default VUndefined (result !! "metafile")) = false →
  main proc env = (Returned tt, [Build (<["plugins" := VArray own]> args)]).
Proof.
  intros Hbin Hsandbox Hflag Huser Hconfig Hread Hplugins Hbuilt Hmeta.
  unfold main. rewrite Hbin, Hflag. simpl.
  unfold getEsbuildArgs. rewrite Hread. simpl.
  rewrite (getFlag_absent proc "--user_args" false Huser). simpl.
  rewrite (getFlag_absent proc "--config_file" false Hconfig). simpl.
  unfold runOneBuild, assembleArgs, inlineArgs. simpl.
  unfold withPlugins. rewrite Hsandbox.
  assert (Hw : match args !! "plugins" with
               | None | Some VUndefined => ret (<["plugins" := VArray []]> args)
               | Some given =>
                   match iterate given with
                   | Some more => ret (<["plugins" := VArray ([] ++ more)]> args)
                   | None => throw (TypeError "args.plugins is not iterable")
                   end
               end = (Returned (<["plugins" := VArray own]> args), @nil Driver.event)).
  { by destruct Hplugins as [[-> ->] | ->]. }
  rewrite Hw. simpl. unfold buildAndReport. rewrite Hbuilt, Hmeta. done.
Qed.

End DriverClaims.


(** * The further properties on sample inputs *)

Ltac each_argument :=
  let a := fresh "a" in
  let Ha := fresh "Ha" in
  intros a Ha;
  repeat (apply elem_of_cons in Ha as [->|Ha]; [reflexivity|]);
  by apply elem_of_nil in Ha.

Section SandboxSamples.
Import Effect Js JsString Sandbox SandboxLog PathShape Fixture Sample.

Lemma non_relative_specifier_witness :
  let request := fromDir "/exec/app" PDUndefined in
  fsCalls (snd (resolveInExecroot sandbox "react" request)) = [] ∧
  resolverCalls (snd (resolveInExecroot sandbox "react" request))
    = [BuildResolve "react" request].
Proof.
  intros request.
  apply (non_relative_specifier_goes_straight_to_the_resolver sandbox "react" request).
  reflexivity.
Defined.

Lemma resolver_request_witness :
  let request := fromDir "/exec/app" PDUndefined in
  let sent := fromDir "/exec/app" (PDObject {[ marker := VBool true ]}) in
  "react" = "react" ∧
  resolveDir sent = resolveDir request ∧
  importer sent = importer request ∧
  namespace sent = namespace request ∧
  kind sent = kind request ∧
  marked (pluginData sent) = true ∧
  onResolve sandbox "react" sent = (Returned None, []).
Proof.
  intros request sent.
  apply (resolver_requests_carry_the_marker sandbox "react" request "react" sent).
  - left. reflexivity.
  - vm_compute. left.
Defined.

Lemma plugin_frame_witness :
  let request := fromDir "/exec/app" PDUndefined in
  let returned := resolved "/exec/bazel-out/k8-fastbuild/bin/x" in
  ∃ result,
    fst (resolution sandbox "x" request) = Returned result ∧
    errors returned = errors result ∧
    others returned = others result ∧
    (hasErrors result = true ∨ pathLike (path result) = false
       ∨ startsWith (path result) (execroot sandbox) = true →
     returned = result) ∧
    (returned ≠ result →
     includes (path result) (bindir sandbox) = true ∧
     path returned =
       NodePath.join (execroot sandbox)
         (substring (path result) (indexOf (path result) (bindir sandbox)))).
Proof.
  intros request returned.
  apply (plugin_changes_only_the_path sandbox "x" request returned).
  vm_compute. reflexivity.
Defined.

Lemma debug_console_witness :
  let request := fromDir "/exec/app" PDUndefined in
  let text := debugMessage "/outside/bazel-out/k8-fastbuild/bin/x"
                           "/exec/bazel-out/k8-fastbuild/bin/x" in
  logDebug debugSandbox = true ∧
  ∃ result corrected,
    fst (resolution debugSandbox "x" request) = Returned result ∧
    fst (resolveInExecroot debugSandbox "x" request)
      = Returned (withPath result corrected) ∧
    text = debugMessage (path result) corrected ∧
    consoleCalls (snd (resolveInExecroot debugSandbox "x" request))
      = [ConsoleError text].
Proof.
  intros request text.
  apply (console_is_written_only_on_a_debugged_correction debugSandbox "x" request text).
  vm_compute. right. left.
Defined.

Lemma corrected_path_under_execroot_witness :
  let result := resolved "/outside/bazel-out/k8-fastbuild/bin/x" in
  ∃ corrected,
    fst (sandboxResult sandbox result) = Returned (withPath result corrected) ∧
    startsWith corrected (execroot sandbox) = true ∧
    sandboxResult sandbox (withPath result corrected)
      = (Returned (withPath result corrected), []).
Proof.
  intros result.
  apply (corrected_path_lies_under_the_execroot sandbox result ["exec"]);
    vm_compute; reflexivity.
Defined.

End SandboxSamples.

Section AssemblySamples.
Import Effect Js JsString Launcher Fixture Sample.

Lemma null_config_value_witness :
  ∃ merged log,
    assembleArgs files ruleArgs None (Some "odd.config.mjs") = (Returned merged, log) ∧
    merged !! "target" = ruleArgs !! "target" ∧
    warningsNaming "target" log = [].
Proof.
  apply (null_config_value_is_skipped files ruleArgs None "odd.config.mjs"
           ruleArgs {[ "default" := VObject oddConfig ]} oddConfig)
    with (value := VNull); try (vm_compute; reflexivity).
  discriminate.
Defined.

Lemma unmergeable_define_witness :
  ∃ merged log,
    assembleArgs files ruleArgs None (Some "odd.config.mjs") = (Returned merged, log) ∧
    merged !! "define" = Some (VObject {[ "B" := num 3; "C" := num 4 ]}) ∧
    warningsNaming "define" log = [UnmergeableWarning "define" "odd.config.mjs"].
Proof.
  apply (unmergeable_define_is_kept_and_warned files ruleArgs None "odd.config.mjs"
           ruleArgs {[ "default" := VObject oddConfig ]} oddConfig)
    with (value := VString "DEBUG"); try (vm_compute; reflexivity); discriminate.
Defined.

Lemma define_without_existing_witness :
  ∃ merged log,
    assembleArgs files plainArgs None (Some "esbuild.config.mjs") = (Returned merged, log) ∧
    merged !! "define" = Some (VObject {[ "A" := num 1; "B" := num 2 ]}) ∧
    warningsNaming "define" log = [].
Proof.
  apply (define_without_existing_is_taken files plainArgs None "esbuild.config.mjs"
           plainArgs {[ "default" := VObject userConfig ]} userConfig);
    try (vm_compute; reflexivity). discriminate.
Defined.

Lemma untouched_key_witness :
  ∃ merged log,
    assembleArgs files plainArgs None (Some "esbuild.config.mjs") = (Returned merged, log) ∧
    merged !! "format" = plainArgs !! "format" ∧ warningsNaming "format" log = [].
Proof.
  eexists _, _. split; [vm_compute; reflexivity|].
  apply (keys_outside_the_config_are_untouched files plainArgs None
           "esbuild.config.mjs" plainArgs {[ "default" := VObject userConfig ]}
           userConfig); try (vm_compute; reflexivity). discriminate.
Defined.

Lemma define_merges_witness :
  fst (assembleArgs files shadowingArgs None (Some "esbuild.config.mjs"))
    = Thrown (TypeError "existingArgs.hasOwnProperty is not a function") ∧
  fst (assembleArgs files ruleArgs None (Some "seq.config.mjs"))
    = Thrown (TypeError "existingArgs[key] is not iterable") ∧
  ∃ merged,
    fst (assembleArgs files plainArgs None (Some "esbuild.config.mjs"))
      = Returned merged.
Proof.
  split; [|split].
  - destruct (assembly_returns_exactly_when_define_merges files shadowingArgs
                None "esbuild.config.mjs" shadowingArgs
                {[ "default" := VObject userConfig ]} userConfig
                eq_refl ltac:(discriminate) eq_refl eq_refl eq_refl)
      as (Hshadowed & _ & _).
    apply Hshadowed. vm_compute. reflexivity.
  - destruct (assembly_returns_exactly_when_define_merges files ruleArgs
                None "seq.config.mjs" ruleArgs
                {[ "default" := VObject seqConfig ]} seqConfig
                eq_refl ltac:(discriminate) eq_refl eq_refl eq_refl)
      as (_ & Hspread & _).
    apply Hspread; vm_compute; reflexivity.
  - destruct (assembly_returns_exactly_when_define_merges files plainArgs
                None "esbuild.config.mjs" plainArgs
                {[ "default" := VObject userConfig ]} userConfig
                eq_refl ltac:(discriminate) eq_refl eq_refl eq_refl)
      as (_ & _ & Hreturns).
    apply Hreturns; vm_compute; reflexivity.
Defined.

Lemma user_args_witness :
  (∀ userArgs, readParams files "/work/user.json" = Some userArgs →
     ∃ merged,
       inlineArgs files plainArgs (Some "/work/user.json") = (Returned merged, []) ∧
       ∀ key, merged !! key = match userArgs !! key with
                              | Some v => Some v
                              | None => plainArgs !! key
                              end) ∧
  (readParams files "/work/user.json" = None →
   ∀ configFlag,
     assembleArgs files plainArgs (Some "/work/user.json") configFlag
       = (Exited 1, [ParamsFileError "/work/user.json"])).
Proof.
  apply (user_args_override_or_end_the_process files plainArgs
           (Some "/work/user.json") "/work/user.json").
  reflexivity.
Defined.

Lemma unusable_configuration_witness :
  (importModule files (NodePath.join (cwd files) "missing.mjs") = None →
   assembleArgs files plainArgs None (Some "missing.mjs")
     = (Exited 1, [ConfigLoadError "missing.mjs"])) ∧
  (∀ exports,
     importModule files (NodePath.join (cwd files) "missing.mjs") = Some exports →
     truthy (default VUndefined (exports !! "default")) = false →
     assembleArgs files plainArgs None (Some "missing.mjs")
       = (Exited 1, [NoDefaultExport "missing.mjs"])).
Proof.
  apply (unusable_configuration_ends_the_process files plainArgs None
           "missing.mjs" plainArgs); [vm_compute; reflexivity|discriminate].
Defined.

Lemma assembly_warning_witness :
  ∃ key value,
    userConfig !! key = Some value ∧
    nullish value = false ∧
    ((IgnoredWarning "bundle" "esbuild.config.mjs"
        = IgnoredWarning key "esbuild.config.mjs" ∧ key ∈ IGNORED_CONFIG_KEYS) ∨
     (IgnoredWarning "bundle" "esbuild.config.mjs"
        = UnmergeableWarning key "esbuild.config.mjs" ∧ key = "define" ∧
      is_Some (ruleArgs !! "define"))).
Proof.
  apply (assembly_only_warns_about_configured_keys files ruleArgs None
           "esbuild.config.mjs" ruleArgs {[ "default" := VObject userConfig ]}
           userConfig); try (vm_compute; reflexivity); [discriminate|].
  vm_compute. left.
Defined.

End AssemblySamples.

Section DriverSamples.
Import Effect Js JsString Launcher Driver Fixture Sample.

Lemma getFlag_witness :
  getFlag (launch false ["--esbuild_args=/work/args.json"; "--metafile=/out/meta=v2.json"])
    "--metafile" true
  = (Returned (Some "/out/meta"), []).
Proof.
  apply (getFlag_returns_the_text_up_to_the_next_equals _ "--metafile" true
           ["node"; "launcher.js"; "--esbuild_args=/work/args.json"]
           "/out/meta" "=v2.json" []).
  - reflexivity.
  - reflexivity.
  - each_argument.
  - reflexivity.
  - right. reflexivity.
Defined.

Lemma sandbox_plugin_first_witness :
  let args : gmap string value :=
    {[ "entryPoints" := VArray [VString "a.js"]; "plugins" := VArray [VFunction "mine"] ]} in
  let spec := <["plugins" := VArray [bazelSandboxPlugin; VFunction "mine"]]> args in
  ∃ assembled own,
    fst (assembleArgs files args None None) = Returned assembled ∧
    spec = <["plugins" := VArray ([bazelSandboxPlugin] ++ own)]> assembled ∧
    (assembled !! "plugins" = None ∨ assembled !! "plugins" = Some VUndefined
       → own = []) ∧
    (∀ given, assembled !! "plugins" = Some given → given ≠ VUndefined →
       iterate given = Some own) ∧
    builds (snd (runOneBuild (launch true []) bundler args None None)) = [spec].
Proof.
  intros args spec.
  apply (build_gets_the_sandbox_plugin_first (launch true []) bundler args None None spec).
  vm_compute. left.
Defined.

Lemma uniterable_plugins_witness :
  let args : gmap string value := {[ "plugins" := VNull ]} in
  fst (runOneBuild (launch false []) bundler args None None)
    = Thrown (TypeError "args.plugins is not iterable") ∧
  builds (snd (runOneBuild (launch false []) bundler args None None)) = [].
Proof.
  intros args.
  apply (uniterable_plugins_throw_before_the_build (launch false []) bundler
           args None None args VNull); try (vm_compute; reflexivity). discriminate.
Defined.

Lemma failed_build_witness :
  ∃ log,
    buildAndReport (launch false []) bundler ∅ = (Exited 1, Build ∅ :: log) ∧
    (log = [] ∨ log = [Console (BuildError summary)]) ∧
    (log = [] ↔
     isSilent ((∅ : gmap string value) !! "logLevel") = false ∧
     instanceofError summary = true ∧
     ∃ pre digits plural post,
       message summary = pre +:+ "Build failed with " +:+ digits +:+ " error" +:+
                         plural +:+ ":" +:+ post ∧
       digits ≠ EmptyString ∧ allDigits digits = true ∧
       (plural = EmptyString ∨ plural = "s")).
Proof.
  apply (failed_build_exits_and_logs_once (launch false []) bundler ∅ summary).
  reflexivity.
Defined.

Lemma metafile_witness :
  let proc := launch false ["--metafile=/out/meta.json"] in
  let spec : gmap string value :=
    {[ "entryPoints" := VArray [VString "a.js"]; "metafile" := VBool true ]} in
  let metafile := VObject {[ "outputs" := VObject ∅ ]} in
  buildAndReport proc bundler spec
    = (Returned tt, [Build spec; WriteFile "/out/meta.json" metafile]).
Proof.
  intros proc spec metafile.
  destruct (metafile_goes_to_the_flag_path proc bundler spec
              {[ "metafile" := metafile ]}) as (_ & _ & Hwrite).
  - vm_compute. reflexivity.
  - destruct (Hwrite eq_refl "/out/meta.json") as [Hok _].
    + vm_compute. reflexivity.
    + apply Hok. reflexivity.
Defined.

Lemma launcher_inputs_witness :
  let proc := {| argv := ["node"; "launcher.js"];
                 ESBUILD_BINARY_PATH := None;
                 ESBUILD_BAZEL_SANDBOX_PLUGIN := None |} in
  main proc bundler = (Exited 1, [Console BinaryPathMissing]).
Proof.
  intros proc.
  destruct (launcher_ends_without_its_inputs proc bundler) as (Hbinary & _).
  apply Hbinary. reflexivity.
Defined.

Lemma plain_run_witness :
  main (launch false ["--esbuild_args=/work/args.json"]) bundler
    = (Returned tt, [Build (<["plugins" := VArray []]> plainArgs)]).
Proof.
  apply (plain_run_builds_once_with_the_inline_arguments
           (launch false ["--esbuild_args=/work/args.json"]) bundler
           "/work/args.json" plainArgs [] ∅).
  - reflexivity.
  - reflexivity.
  - vm_compute. reflexivity.
  - each_argument.
  - each_argument.
  - reflexivity.
  - left. split; [vm_compute; reflexivity|reflexivity].
  - vm_compute. reflexivity.
  - reflexivity.
Defined.

End DriverSamples.
